(** * Simulateur_Immo: market statistics and valuation

    A shallow embedding of the scripts of the repository:
    estimateur_demo.py (module [Demo]), estimateur_demo_streamlit.py
    (module [DemoStreamlit]: its generator; its analysis and valuation are
    those of the console demo without the prints and the saved file) and
    estimateur_immobilier_streamlit.py (module [Dvf]).
    estimateur_immobilier_fix.py repeats the fetch and the analysis
    without statistics, trend line or coefficient and is not embedded.

    Conventions of the embedding.
    - A Python float is an exact rational ([Q]): the scripts are embedded
      with exact arithmetic, which is faithful for what they select, order,
      group and count, and for what they raise.  NaN, which pandas returns
      for the mean, min, max, median and quantile of an empty series, is
      [None] of [pyfloat].  Sums, products and quotients of floats are
      rounded by the machine; module [Double] embeds the price column and
      its mean, minimum and maximum on IEEE binary64 floats, and is used
      where rounding decides a statement.
    - Prices per square metre are only meaningful for a non-zero built
      area (pandas yields inf or NaN there, [Q] yields 0), so statements
      about values assume positive areas, which is what the DVF fetch
      guarantees by its filter.
    - A DataFrame is the list of its base rows together with the two
      derived columns the scripts add to it.
    - numpy's polyfit and random generator, the HTTP client and the pandas
      parsers are libraries, not code of the repository: they are fields of
      the classes [Numpy] and [Reseau].
    - Printing, plotting and saving are recorded in a trace of effects. *)

From Stdlib Require Import QArith Qround Qminmax ZArith List String Ascii.
From Stdlib Require Import Bool Lia Lqa Permutation Sorted DecimalString.
From Stdlib Require PrimFloat.
Import ListNotations.

Open Scope Q_scope.

(* ================================================================== *)
(** * Python values *)

(** A float, with NaN as [None]. *)
Definition pyfloat := option Q.

Definition NaN : pyfloat := None.

(** Exceptions that the scripts can meet. *)
Inductive exn :=
| ValueError (msg : string)
| KeyError (msg : string)
| AutreException (msg : string).

(** [str(e)]: the message; for a KeyError, the repr of the key, between
    single quotes. *)
Definition str_exn (e : exn) : string :=
  match e with
  | ValueError m => m
  | KeyError m => "'" ++ m ++ "'"
  | AutreException m => m
  end.

Inductive resultat (A : Type) :=
| Retour (a : A)
| Leve (e : exn).
Arguments Retour {A} a.
Arguments Leve {A} e.

Definition bind {A B} (m : resultat A) (f : A -> resultat B) : resultat B :=
  match m with
  | Retour a => f a
  | Leve e => Leve e
  end.

Notation "x <- m ;; k" := (bind m (fun x => k))
  (at level 61, m at next level, right associativity).

(** [int(x)] on a finite float truncates towards zero. *)
Definition tronque (x : Q) : Z :=
  if Qle_bool 0 x then Qfloor x else Qceiling x.

(** [int(x)]: raises on NaN. *)
Definition py_int (x : pyfloat) : resultat Z :=
  match x with
  | Some q => Retour (tronque q)
  | None => Leve (ValueError "cannot convert float NaN to integer")
  end.

(** [str(n)] for an integer. *)
Definition str_int (n : Z) : string := NilZero.string_of_int (Z.to_int n).

(* ================================================================== *)
(** * pandas Series of floats *)

Definition Series := list Q.

Definition somme (s : Series) : Q := fold_right Qplus 0 s.

(** [s.mean()] *)
Definition mean (s : Series) : pyfloat :=
  match s with
  | [] => NaN
  | _ :: _ => Some (somme s / inject_Z (Z.of_nat (List.length s)))
  end.

(** [s.min()] and [s.max()] *)
Definition serie_min (s : Series) : pyfloat :=
  match s with
  | [] => NaN
  | x :: t => Some (fold_left Qmin t x)
  end.

Definition serie_max (s : Series) : pyfloat :=
  match s with
  | [] => NaN
  | x :: t => Some (fold_left Qmax t x)
  end.

(** Ascending sort of the values. *)
Fixpoint insere (x : Q) (l : list Q) : list Q :=
  match l with
  | [] => [x]
  | y :: l' => if Qle_bool x y then x :: l else y :: insere x l'
  end.

Definition trie (s : Series) : list Q := fold_right insere [] s.

(** [s.median()]: the middle value, or the mean of the two middle values. *)
Definition median (s : Series) : pyfloat :=
  match s with
  | [] => NaN
  | _ :: _ =>
      let t := trie s in
      let n := List.length t in
      if Nat.even n
      then Some ((nth (n / 2 - 1) t 0 + nth (n / 2) t 0) / 2)
      else Some (nth (n / 2) t 0)
  end.

(** [s.quantile(q)], linear interpolation between the two closest ranks:
    the rank is [q * (n - 1)], its integer part selects the lower value
    and its fractional part weights the step to the next one. *)
Definition quantile (s : Series) (q : Q) : pyfloat :=
  match s with
  | [] => NaN
  | _ :: _ =>
      let t := trie s in
      let n := List.length t in
      let rang := q * inject_Z (Z.of_nat (n - 1)) in
      let bas := Z.to_nat (Qfloor rang) in
      let haut := Nat.min (S bas) (n - 1) in
      let gamma := rang - inject_Z (Z.of_nat bas) in
      Some (nth bas t 0 + (nth haut t 0 - nth bas t 0) * gamma)
  end.

(** [x >= b] and [x <= b] against a float that may be NaN (then False). *)
Definition ge_float (x : Q) (b : pyfloat) : bool :=
  match b with Some q => Qle_bool q x | None => false end.

Definition le_float (x : Q) (b : pyfloat) : bool :=
  match b with Some q => Qle_bool x q | None => false end.

(* ================================================================== *)
(** * Dates *)

(** [datetime(y, m, d)]; the scripts only use midnight values. *)
Record datetime := mk_datetime { year : Z; month : Z; day : Z }.

Open Scope Z_scope.

(** Days since 1970-01-01 in the proleptic Gregorian calendar, the
    calendar of Python's [datetime]. *)
Definition jours_depuis_date (d : datetime) : Z :=
  let y := if month d <=? 2 then year d - 1 else year d in
  let era := y / 400 in
  let yoe := y - era * 400 in
  let mp := if 2 <? month d then month d - 3 else month d + 9 in
  let doy := (153 * mp + 2) / 5 + day d - 1 in
  let doe := yoe * 365 + yoe / 4 - yoe / 100 + doy in
  era * 146097 + doe - 719468.

Definition date_depuis_jours (z : Z) : datetime :=
  let z := z + 719468 in
  let era := z / 146097 in
  let doe := z - era * 146097 in
  let yoe := (doe - doe / 1460 + doe / 36524 - doe / 146096) / 365 in
  let y := yoe + era * 400 in
  let doy := doe - (365 * yoe + yoe / 4 - yoe / 100) in
  let mp := (5 * doy + 2) / 153 in
  let d := doy - (153 * mp + 2) / 5 + 1 in
  let m := if mp <? 10 then mp + 3 else mp - 9 in
  mk_datetime (if m <=? 2 then y + 1 else y) m d.

(** [d + timedelta(days=k)] *)
Definition plus_jours (d : datetime) (k : Z) : datetime :=
  date_depuis_jours (jours_depuis_date d + k).

Close Scope Z_scope.

(* ================================================================== *)
(** * DataFrame *)

(** One transaction: the three columns every script keeps. *)
Record transaction := mk_transaction {
  date_mutation : datetime;
  valeur_fonciere : Q;
  surface_reelle_bati : Q
}.

(** A frame: its rows, and the derived columns ['prix_m2'] and ['annee']
    once they have been assigned. *)
Record DataFrame := mk_df {
  lignes : list transaction;
  prix_m2 : option (list Q);
  annee : option (list Z)
}.

(** [pd.DataFrame()] *)
Definition df_vide : DataFrame := mk_df [] None None.

(** [df.empty] *)
Definition empty (df : DataFrame) : bool :=
  match lignes df with [] => true | _ :: _ => false end.

(** [len(df)] *)
Definition len (df : DataFrame) : nat := List.length (lignes df).

(** [df['prix_m2'] = s] and [df['annee'] = a] *)
Definition affecte_prix_m2 (df : DataFrame) (s : list Q) : DataFrame :=
  mk_df (lignes df) (Some s) (annee df).

Definition affecte_annee (df : DataFrame) (a : list Z) : DataFrame :=
  mk_df (lignes df) (prix_m2 df) (Some a).

(** [df['prix_m2']] and [df['annee']]: KeyError when the column is absent. *)
Definition col_prix_m2 (df : DataFrame) : resultat (list Q) :=
  match prix_m2 df with
  | Some s => Retour s
  | None => Leve (KeyError "prix_m2")
  end.

Definition col_annee (df : DataFrame) : resultat (list Z) :=
  match annee df with
  | Some a => Retour a
  | None => Leve (KeyError "annee")
  end.

(** [df['valeur_fonciere'] / df['surface_reelle_bati']] *)
Definition ratio (t : transaction) : Q :=
  valeur_fonciere t / surface_reelle_bati t.

Definition valeur_sur_surface (df : DataFrame) : list Q :=
  map ratio (lignes df).

(** [df['date_mutation'].dt.year] *)
Definition dt_year (df : DataFrame) : list Z :=
  map (fun t => year (date_mutation t)) (lignes df).

(** [l[mask]]: the entries whose mask bit is set. *)
Fixpoint selection {A} (mask : list bool) (l : list A) : list A :=
  match mask, l with
  | b :: mask', x :: l' =>
      if b then x :: selection mask' l' else selection mask' l'
  | _, _ => []
  end.

(** [df[mask]] *)
Definition df_selection (df : DataFrame) (mask : list bool) : DataFrame :=
  mk_df (selection mask (lignes df))
        (option_map (selection mask) (prix_m2 df))
        (option_map (selection mask) (annee df)).

(** ** groupby *)

(** Groups keyed by year, kept in ascending key order (pandas sorts the
    group keys); a value joins the group of its key at the end. *)
Fixpoint ajoute_au_groupe (k : Z) (v : Q) (g : list (Z * list Q))
  : list (Z * list Q) :=
  match g with
  | [] => [(k, [v])]
  | (k', vs) :: g' =>
      if (k <? k')%Z then (k, [v]) :: g
      else if (k =? k')%Z then (k', vs ++ [v]) :: g'
      else (k', vs) :: ajoute_au_groupe k v g'
  end.

Definition groupby (cles : list Z) (vals : list Q) : list (Z * list Q) :=
  fold_left (fun g kv => ajoute_au_groupe (fst kv) (snd kv) g)
            (combine cles vals) [].

(** [.sort_index()] on a series indexed by year. *)
Fixpoint insere_index {A} (e : Z * A) (l : list (Z * A)) : list (Z * A) :=
  match l with
  | [] => [e]
  | f :: l' => if (fst e <=? fst f)%Z then e :: l else f :: insere_index e l'
  end.

Definition sort_index {A} (l : list (Z * A)) : list (Z * A) :=
  fold_right insere_index [] l.

(** [.groupby(a)[s].mean().sort_index()] on the two columns. *)
Definition moyenne_par_annee (a : list Z) (s : list Q) : list (Z * pyfloat) :=
  sort_index (map (fun g => (fst g, mean (snd g))) (groupby a s)).

(** [df.groupby('annee')['prix_m2'].mean().sort_index()] *)
Definition evolution_par_annee (df : DataFrame)
  : resultat (list (Z * pyfloat)) :=
  a <- col_annee df ;;
  s <- col_prix_m2 df ;;
  Retour (moyenne_par_annee a s).

(* ================================================================== *)
(** * Modelling of the property (section 1 of every script) *)

Inductive Standing := A_RENOVER | STANDARD | HAUT_DE_GAMME.

(** [standing.value] *)
Definition standing_value (s : Standing) : string :=
  match s with
  | A_RENOVER => "À rénover"
  | STANDARD => "Standard"
  | HAUT_DE_GAMME => "Haut de gamme"
  end.

Record BienImmobilier := mk_bien {
  code_insee : string;
  ville : string;
  surface_habitable : Q;
  nombre_pieces : Z;
  standing : Standing
}.

(** The dictionary [ajustements] of every [main]. *)
Definition ajustements (s : Standing) : Q :=
  match s with
  | A_RENOVER => 0.85
  | STANDARD => 1.0
  | HAUT_DE_GAMME => 1.20
  end.

(** [str(coefficient)] for the three constants of [ajustements]. *)
Definition str_coefficient (s : Standing) : string :=
  match s with
  | A_RENOVER => "0.85"
  | STANDARD => "1.0"
  | HAUT_DE_GAMME => "1.2"
  end.

(** [x * y] on floats, NaN being absorbing. *)
Definition fmul (x : pyfloat) (y : Q) : pyfloat := option_map (fun q => q * y) x.

(** [x == 0] on a float (False on NaN). *)
Definition est_zero (x : pyfloat) : bool :=
  match x with Some q => Qeq_bool q 0 | None => false end.

(* ================================================================== *)
(** * Effects *)

Definition nl : string := String (ascii_of_nat 10) EmptyString.

(** A drawing command on a matplotlib figure.  Styling calls that carry no
    data (grid, axis labels, legend, layout) are left out. *)
Inductive dessin :=
| Plot (xs : list Z) (ys : list pyfloat)
| Title (s : string)
| PlotTendance (xs : list Z) (ys : list Q) (label : string).

Definition figure := list dessin.

(** What a script does to the outside.  Banner lines that print constants
    only are left out of the trace. *)
Inductive effet :=
| PyPrint (s : string)
| Plt (d : dessin)
| Savefig (fichier : string)
| PltClose
| StError (s : string)
| StInfo (s : string)
| StSuccess (s : string)
| StMetric (label valeur : string)
| StPyplot (fig : figure).

(** A computation that may raise and leaves a trace. *)
Definition M (A : Type) : Type := resultat A * list effet.

Definition ret {A} (a : A) : M A := (Retour a, []).

Definition emet (e : effet) : M unit := (Retour tt, [e]).

Definition lie {A B} (m : M A) (f : A -> M B) : M B :=
  match m with
  | (Retour a, t) => let '(r, t') := f a in (r, t ++ t')
  | (Leve e, t) => (Leve e, t)
  end.

Definition de_resultat {A} (r : resultat A) : M A := (r, []).

Notation "x <-- m ;; k" := (lie m (fun x => k))
  (at level 61, m at next level, right associativity).
Notation "m ;;; k" := (lie m (fun _ => k))
  (at level 61, right associativity).

(** [f"{n:,}".replace(',', ' ')]: digits in groups of three. *)
Fixpoint groupe3 (l : list ascii) (k : nat) : list ascii :=
  match l with
  | [] => []
  | c :: l' =>
      match k with
      | 3%nat => " "%char :: c :: groupe3 l' 1
      | _ => c :: groupe3 l' (S k)
      end
  end.

Definition format_milliers (n : Z) : string :=
  let chiffres := list_ascii_of_string (str_int (Z.abs n)) in
  let groupes := string_of_list_ascii (rev (groupe3 (rev chiffres) 0)) in
  if (n <? 0)%Z then ("-" ++ groupes)%string else groupes.

(* ================================================================== *)
(** * numpy *)

(** The part of numpy the scripts call.  [polyfit] is
    [np.polyfit(x, y, 1)], giving the slope [z[0]] and the intercept
    [z[1]].  The generator is the global one of [np.random]; an array of
    [n] draws is [n] successive draws. *)
Class Numpy := {
  polyfit : list Z -> list pyfloat -> Q * Q;
  generateur : Type;
  seed : Z -> generateur;
  randint : Z -> Z -> generateur -> Z * generateur;
  normal : Q -> Q -> generateur -> Q * generateur;
  uniform : Q -> Q -> generateur -> Q * generateur
}.

(** [np.poly1d(z)(xs)] *)
Definition poly1d (z : Q * Q) (xs : list Z) : list Q :=
  map (fun x => fst z * inject_Z x + snd z) xs.

Fixpoint tirages {G A} (n : nat) (tire : G -> A * G) (g : G) : list A * G :=
  match n with
  | O => ([], g)
  | S n' =>
      let '(a, g1) := tire g in
      let '(l, g2) := tirages n' tire g1 in
      (a :: l, g2)
  end.

(** [int] minimum and maximum of a column of years, printed in a title. *)
Definition annee_min (a : list Z) : option Z :=
  match a with [] => None | x :: t => Some (fold_left Z.min t x) end.

Definition annee_max (a : list Z) : option Z :=
  match a with [] => None | x :: t => Some (fold_left Z.max t x) end.

Definition str_annee (a : option Z) : string :=
  match a with Some y => str_int y | None => "nan" end.

(* ================================================================== *)
(** * estimateur_demo.py *)

Module Demo.
Section AvecNumpy.
Context {np : Numpy}.

(** [generer_donnees_demo(code_insee)], from the current state of the
    global generator; returns the frame and the state it leaves. *)
Definition generer_donnees_demo (code_insee : string) (g : generateur)
  : M DataFrame * generateur :=
  let n_transactions := 150%nat in
  let g := seed 42 in
  let '(jours, g) := tirages n_transactions (randint 0 1825) g in
  let dates := map (fun k => plus_jours (mk_datetime 2019 1 1) k) jours in
  let prix_m2_base :=
    map (fun d => inject_Z (2000 + (year d - 2019) * 100)) dates in
  let '(bruit, g) := tirages n_transactions (normal 0 200) g in
  let prix := map (fun p => fst p + snd p) (combine prix_m2_base bruit) in
  let '(surfaces, g) := tirages n_transactions (uniform 30 150) g in
  let valeurs := map (fun p => fst p * snd p) (combine prix surfaces) in
  let df :=
    mk_df (map (fun p => mk_transaction (fst (fst p)) (snd (fst p)) (snd p))
               (combine (combine dates valeurs) surfaces))
          None None in
  (emet (PyPrint ("🔄 Génération de données de démonstration pour "
                ++ code_insee ++ "...")) ;;;
   emet (PyPrint ("✅ " ++ str_int (Z.of_nat (len df))
                ++ " transactions générées (données de démonstration)")) ;;;
   ret df,
   g).

(** [analyser_marche(df)].  The frame is mutated in place: the value
    returned with the price is the frame as the caller sees it afterwards. *)
Definition analyser_marche (df : DataFrame) : M (pyfloat * DataFrame) :=
  if empty df then ret (Some 0.0, df)
  else
    (* Calcul du prix au m² *)
    let df := affecte_prix_m2 df (valeur_sur_surface df) in
    (* Moyenne globale *)
    s <-- de_resultat (col_prix_m2 df) ;;
    let prix_moyen_global := mean s in
    (* Évolution par année *)
    let df := affecte_annee df (dt_year df) in
    evolution <-- de_resultat (evolution_par_annee df) ;;
    (* Statistiques *)
    emet (PyPrint (nl ++ "📊 STATISTIQUES DU MARCHÉ")) ;;;
    s <-- de_resultat (col_prix_m2 df) ;;
    i <-- de_resultat (py_int (serie_min s)) ;;
    emet (PyPrint ("Prix min  : " ++ str_int i ++ " €/m²")) ;;;
    i <-- de_resultat (py_int (serie_max s)) ;;
    emet (PyPrint ("Prix max  : " ++ str_int i ++ " €/m²")) ;;;
    i <-- de_resultat (py_int prix_moyen_global) ;;
    emet (PyPrint ("Prix moyen: " ++ str_int i ++ " €/m²")) ;;;
    i <-- de_resultat (py_int (median s)) ;;
    emet (PyPrint ("Médiane   : " ++ str_int i ++ " €/m²")) ;;;
    (* Graphique *)
    emet (Plt (Plot (map fst evolution) (map snd evolution))) ;;;
    a <-- de_resultat (col_annee df) ;;
    emet (Plt (Title ("Évolution du prix au m² - " ++ str_annee (annee_min a)
                      ++ " à " ++ str_annee (annee_max a)))) ;;;
    (* Ajout de la ligne de tendance *)
    let z := polyfit (map fst evolution) (map snd evolution) in
    emet (Plt (PlotTendance (map fst evolution)
                            (poly1d z (map fst evolution))
                            ("Tendance: +" ++ str_int (tronque (fst z))
                             ++ "€/an"))) ;;;
    emet (Savefig "evolution_prix_m2.png") ;;;
    emet (PyPrint (nl ++ "✅ Graphique sauvegardé : evolution_prix_m2.png")) ;;;
    emet PltClose ;;;
    ret (prix_moyen_global, df).

(** The valuation of [main] (from the dictionary [ajustements] to the last
    print), as a function of the mean price and of the property. *)
Record estimation := mk_estimation {
  coefficient : Q;
  prix_ajuste_m2 : pyfloat;
  estimation_finale : pyfloat;
  fourchette_basse : pyfloat;
  fourchette_haute : pyfloat
}.

Definition estimer (prix_moyen_m2 : pyfloat) (mon_bien : BienImmobilier)
  : estimation :=
  let coefficient := ajustements (standing mon_bien) in
  let prix_ajuste_m2 := fmul prix_moyen_m2 coefficient in
  let estimation_finale := fmul prix_ajuste_m2 (surface_habitable mon_bien) in
  mk_estimation coefficient prix_ajuste_m2 estimation_finale
                (fmul estimation_finale 0.95) (fmul estimation_finale 1.05).

Definition affiche_resultat (prix_moyen_m2 : pyfloat)
  (mon_bien : BienImmobilier) (e : estimation) : M unit :=
  i <-- de_resultat (py_int prix_moyen_m2) ;;
  emet (PyPrint ("Prix moyen secteur      : " ++ format_milliers i ++ " €/m²")) ;;;
  emet (PyPrint ("Coefficient standing    : "
               ++ str_coefficient (standing mon_bien)
               ++ " (" ++ standing_value (standing mon_bien) ++ ")")) ;;;
  i <-- de_resultat (py_int (prix_ajuste_m2 e)) ;;
  emet (PyPrint ("Prix ajusté             : " ++ format_milliers i ++ " €/m²")) ;;;
  i <-- de_resultat (py_int (estimation_finale e)) ;;
  emet (PyPrint (nl ++ "🏠 VALEUR ESTIMÉE        : " ++ format_milliers i ++ " €")) ;;;
  i <-- de_resultat (py_int (fourchette_basse e)) ;;
  emet (PyPrint ("   Fourchette basse (-5%): " ++ format_milliers i ++ " €")) ;;;
  i <-- de_resultat (py_int (fourchette_haute e)) ;;
  emet (PyPrint ("   Fourchette haute (+5%): " ++ format_milliers i ++ " €")).

(** [main()], from the current state of the global generator. *)
Definition main (g : generateur) : M unit :=
  let mon_bien := mk_bien "33114" "Cavignac" 75.0 3 STANDARD in
  df_transactions <-- fst (generer_donnees_demo (code_insee mon_bien) g) ;;
  if empty df_transactions
  then emet (PyPrint (nl ++ "❌ Pas de données disponibles."))
  else
    r <-- analyser_marche df_transactions ;;
    let prix_moyen_m2 := fst r in
    affiche_resultat prix_moyen_m2 mon_bien (estimer prix_moyen_m2 mon_bien).

End AvecNumpy.
End Demo.

(* ================================================================== *)
(** * estimateur_demo_streamlit.py *)

(** The dashboard of the demonstration has the generator of
    estimateur_demo.py without its two prints, and the valuation of
    [Demo.estimer]. *)
Module DemoStreamlit.
Section AvecNumpy.
Context {np : Numpy}.

Definition generer_donnees_demo (code_insee : string) (g : generateur)
  : DataFrame * generateur :=
  let n_transactions := 150%nat in
  let g := seed 42 in
  let '(jours, g) := tirages n_transactions (randint 0 1825) g in
  let dates := map (fun k => plus_jours (mk_datetime 2019 1 1) k) jours in
  let prix_m2_base :=
    map (fun d => inject_Z (2000 + (year d - 2019) * 100)) dates in
  let '(bruit, g) := tirages n_transactions (normal 0 200) g in
  let prix := map (fun p => fst p + snd p) (combine prix_m2_base bruit) in
  let '(surfaces, g) := tirages n_transactions (uniform 30 150) g in
  let valeurs := map (fun p => fst p * snd p) (combine prix surfaces) in
  (mk_df (map (fun p => mk_transaction (fst (fst p)) (snd (fst p)) (snd p))
              (combine (combine dates valeurs) surfaces))
         None None,
   g).

End AvecNumpy.
End DemoStreamlit.

(* ================================================================== *)
(** * estimateur_immobilier_streamlit.py *)

(** [requests.get] gives a response or raises. *)
Record reponse := mk_reponse { status_code : Z; text : string }.

(** A row of the CSV file as [pd.read_csv] delivers it, cells still text. *)
Record ligne_brute := mk_ligne_brute {
  nature_mutation : string;
  type_local : string;
  date_brute : string;
  valeur_brute : string;
  surface_brute : string
}.

Record table_brute := mk_table_brute {
  colonnes : list string;
  lignes_brutes : list ligne_brute
}.

(** The HTTP client and the pandas parsers.  [to_datetime] raises on text
    that is not a date and gives NaT ([None]) on a missing cell;
    [to_numeric] is the call with [errors='coerce']: NaN instead of an
    exception. *)
Class Reseau := {
  requests_get : string -> resultat reponse;
  read_csv : string -> resultat table_brute;
  to_datetime : string -> resultat (option datetime);
  to_numeric : string -> pyfloat
}.

(** [df[c]] on the raw table: KeyError when the file lacks the column. *)
Definition colonne_presente (t : table_brute) (c : string) : resultat unit :=
  if existsb (String.eqb c) (colonnes t) then Retour tt
  else Leve (KeyError c).

Fixpoint pour_chaque {A B} (f : A -> resultat B) (l : list A)
  : resultat (list B) :=
  match l with
  | [] => Retour []
  | x :: l' => y <- f x ;; ys <- pour_chaque f l' ;; Retour (y :: ys)
  end.

(** The statistics dictionary of [analyser_marche]. *)
Record stats := mk_stats {
  stat_min : Z;
  stat_max : Z;
  stat_moyen : Z;
  stat_mediane : Z;
  nb_transactions : nat
}.

(** What the user enters in the sidebar; the select box only offers the
    three labels of [Standing]. *)
Record saisie := mk_saisie {
  input_ville : string;
  input_insee : string;
  input_surface : Q;
  input_pieces : Z;
  input_standing : Standing;
  estimer_button : bool
}.

Module Dvf.
Section AvecBibliotheques.
Context {np : Numpy} {net : Reseau}.

(** A row of [df_final] before [dropna]. *)
Definition ligne_convertie : Type := option datetime * pyfloat * pyfloat.

(** [df_final.dropna()] followed by the filter on a positive area. *)
Definition ligne_complete (l : ligne_convertie) : list transaction :=
  match l with
  | (Some d, Some v, Some s) =>
      if Qlt_le_dec 0 s then [mk_transaction d v s] else []
  | _ => []
  end.

(** The body of the [try] block. *)
Definition recuperer_corps (url : string)
  : resultat (DataFrame * option string) :=
  response <- requests_get url ;;
  if (status_code response =? 200)%Z then
    (* Lecture du CSV *)
    df <- read_csv (text response) ;;
    (* Filtrage *)
    _ <- colonne_presente df "nature_mutation" ;;
    let df_ventes :=
      filter (fun l => String.eqb (nature_mutation l) "Vente")
             (lignes_brutes df) in
    _ <- colonne_presente df "type_local" ;;
    let df_logements :=
      filter (fun l => String.eqb (type_local l) "Maison"
                       || String.eqb (type_local l) "Appartement")
             df_ventes in
    match df_logements with
    | [] => Retour (df_vide,
                    Some "Aucune transaction trouvée pour cette commune"%string)
    | _ :: _ =>
        (* Sélection des colonnes *)
        _ <- colonne_presente df "date_mutation" ;;
        _ <- colonne_presente df "valeur_fonciere" ;;
        _ <- colonne_presente df "surface_reelle_bati" ;;
        dates <- pour_chaque (fun l => to_datetime (date_brute l))
                             df_logements ;;
        let valeurs := map (fun l => to_numeric (valeur_brute l))
                           df_logements in
        let surfaces := map (fun l => to_numeric (surface_brute l))
                            df_logements in
        (* Filtre surface > 0 et valeurs non nulles *)
        let df_final :=
          flat_map ligne_complete
                   (combine (combine dates valeurs) surfaces) in
        match df_final with
        | [] => Retour (df_vide,
                        Some "Données incomplètes pour cette commune"%string)
        | _ :: _ => Retour (mk_df df_final None None, None)
        end
    end
  else
    Retour (df_vide,
            Some ("API non disponible (code "
                  ++ str_int (status_code response) ++ ")")%string).

(** The address of the file of a commune. *)
Definition url_dvf (code_insee : string) : string :=
  let departement := String.substring 0 2 code_insee in
  ("https://files.data.gouv.fr/geo-dvf/latest/csv/2023/communes/"
   ++ departement ++ "/" ++ code_insee ++ ".csv")%string.

(** [recuperer_transactions_dvf(code_insee)]: the [try] block, and the
    [except Exception] clause that turns any exception into a message. *)
Definition recuperer_transactions_dvf (code_insee : string)
  : DataFrame * option string :=
  let url := url_dvf code_insee in
  match recuperer_corps url with
  | Retour r => r
  | Leve e => (df_vide, Some ("Erreur de connexion : " ++ str_exn e)%string)
  end.

(** The outlier mask [(s >= q1) & (s <= q99)]. *)
Definition dans_bande (q1 q99 : pyfloat) (x : Q) : bool :=
  ge_float x q1 && le_float x q99.

(** [analyser_marche(df)]: the price, the figure, the statistics, and the
    caller's frame as mutated. *)
Definition analyser_marche (df : DataFrame)
  : M (pyfloat * option figure * option stats * DataFrame) :=
  if empty df then ret (Some 0.0, None, None, df)
  else
    (* Calcul du prix au m² *)
    let df := affecte_prix_m2 df (valeur_sur_surface df) in
    (* Suppression des outliers *)
    s <-- de_resultat (col_prix_m2 df) ;;
    let q1 := quantile s 0.05 in
    let q99 := quantile s 0.95 in
    let df_clean := df_selection df (map (dans_bande q1 q99) s) in
    (* Moyenne globale *)
    sc <-- de_resultat (col_prix_m2 df_clean) ;;
    let prix_moyen_global := mean sc in
    (* Évolution par année *)
    let df_clean := affecte_annee df_clean (dt_year df_clean) in
    evolution <-- de_resultat (evolution_par_annee df_clean) ;;
    (* Statistiques *)
    sc <-- de_resultat (col_prix_m2 df_clean) ;;
    i_min <-- de_resultat (py_int (serie_min sc)) ;;
    i_max <-- de_resultat (py_int (serie_max sc)) ;;
    i_moyen <-- de_resultat (py_int prix_moyen_global) ;;
    i_mediane <-- de_resultat (py_int (median sc)) ;;
    let stats := mk_stats i_min i_max i_moyen i_mediane (len df_clean) in
    (* Graphique *)
    let fig :=
      [Plot (map fst evolution) (map snd evolution);
       Title "Évolution du prix au m² - Données DVF réelles"] in
    (* Ligne de tendance si suffisamment de données *)
    let fig :=
      if (1 <? List.length evolution)%nat then
        let z := polyfit (map fst evolution) (map snd evolution) in
        fig ++ [PlotTendance (map fst evolution)
                             (poly1d z (map fst evolution))
                             ("Tendance: "
                              ++ (if Qlt_le_dec 0 (fst z) then "+" else "")
                              ++ str_int (tronque (fst z)) ++ "€/an")]
      else fig in
    ret (prix_moyen_global, Some fig, Some stats, df).

(** The valuation of [main], as in the demo scripts. *)
Definition estimer := Demo.estimer.

Definition str_erreur (erreur : option string) : string :=
  match erreur with Some s => s | None => "None" end.

(** The triple-quoted text of the [st.info] under the error, with its line
    breaks and its indentation of sixteen spaces. *)
Definition suggestions : string :=
  let i := "                "%string in
  (nl ++ i ++ "**Suggestions:**"
   ++ nl ++ i ++ "- Vérifiez que le code INSEE est correct"
   ++ nl ++ i ++ "- Essayez une ville plus grande (ex: 33063 pour Bordeaux)"
   ++ nl ++ i ++ "- Certaines petites communes n'ont pas assez de transactions"
   ++ nl ++ i)%string.

(** The triple-quoted text of the closing [st.success], indented by
    twelve spaces. *)
Definition note_finale : string :=
  let i := "            "%string in
  (nl ++ i ++ "✅ **Estimation basée sur des données officielles DVF**"
   ++ nl ++ i
   ++ nl ++ i ++ "Les Demandes de Valeurs Foncières (DVF) sont les données officielles de l'administration fiscale "
   ++ nl ++ i ++ "concernant les transactions immobilières en France."
   ++ nl ++ i)%string.

(** [main()] for one run of the page: its calls of [st.error], [st.info],
    [st.success], [st.metric] and [st.pyplot].  Titles, captions and the
    [st.write] lines are left out of the trace. *)
Definition main (ui : saisie) : M unit :=
  if estimer_button ui then
    (* Création du bien *)
    let mon_bien := mk_bien (input_insee ui) (input_ville ui)
                            (input_surface ui) (input_pieces ui)
                            (input_standing ui) in
    (* Récupération des données RÉELLES *)
    let '(df_transactions, erreur) :=
      recuperer_transactions_dvf (code_insee mon_bien) in
    if empty df_transactions then
      emet (StError ("❌ " ++ str_erreur erreur)) ;;;
      emet (StInfo suggestions)
    else
      (* Analyse *)
      r <-- analyser_marche df_transactions ;;
      let '(prix_moyen_m2, fig, stats, _) := r in
      if est_zero prix_moyen_m2 then
        emet (StError "❌ Impossible d'analyser les données de cette commune")
      else
        (* Ajustement selon le standing *)
        let e := estimer prix_moyen_m2 mon_bien in
        st <-- de_resultat
                 (match stats with
                  | Some st => Retour st
                  | None => Leve (AutreException
                              "'NoneType' object is not subscriptable")
                  end) ;;
        emet (StSuccess ("✅ " ++ str_int (Z.of_nat (nb_transactions st))
                         ++ " transactions DVF analysées pour "
                         ++ ville mon_bien)) ;;;
        emet (StMetric "Prix minimum"
                       (format_milliers (stat_min st) ++ " €/m²")) ;;;
        emet (StMetric "Prix moyen"
                       (format_milliers (stat_moyen st) ++ " €/m²")) ;;;
        emet (StMetric "Prix maximum"
                       (format_milliers (stat_max st) ++ " €/m²")) ;;;
        emet (StMetric "Médiane"
                       (format_milliers (stat_mediane st) ++ " €/m²")) ;;;
        emet (StInfo ("📈 **" ++ str_int (Z.of_nat (nb_transactions st))
                      ++ "** transactions immobilières analysées")) ;;;
        emet (StPyplot (match fig with Some f => f | None => [] end)) ;;;
        i <-- de_resultat (py_int (Demo.fourchette_basse e)) ;;
        emet (StMetric "Fourchette basse (-5%)"
                       (format_milliers i ++ " €")) ;;;
        i <-- de_resultat (py_int (Demo.estimation_finale e)) ;;
        emet (StMetric "VALEUR ESTIMÉE" (format_milliers i ++ " €")) ;;;
        i <-- de_resultat (py_int (Demo.fourchette_haute e)) ;;
        emet (StMetric "Fourchette haute (+5%)"
                       (format_milliers i ++ " €")) ;;;
        (* Note d'information *)
        emet (StSuccess note_finale)
  else
    emet (StInfo "👈 Configurez les paramètres dans la barre latérale et cliquez sur **Estimer avec données réelles**").

End AvecBibliotheques.
End Dvf.

(* ================================================================== *)
(** * estimateur_demo_streamlit.py: analysis and page *)

(** The statistics dictionary of the demonstration dashboard: the four
    integers, without the number of transactions. *)
Record stats_demo := mk_stats_demo {
  demo_min : Z;
  demo_max : Z;
  demo_moyen : Z;
  demo_mediane : Z
}.

(** What [analyser_marche] of the dashboard returns: a tuple of two on an
    empty frame, of three otherwise. *)
Inductive retour_analyse :=
| Couple (prix : pyfloat) (fig : option figure)
| Triplet (prix : pyfloat) (fig : figure) (st : stats_demo).

(** [prix_moyen_m2, fig, stats = ...]: unpacking into three names. *)
Definition depaquette (r : retour_analyse)
  : resultat (pyfloat * figure * stats_demo) :=
  match r with
  | Triplet p fig st => Retour (p, fig, st)
  | Couple _ _ =>
      Leve (ValueError "not enough values to unpack (expected 3, got 2)")
  end.

Module DemoPage.
Section AvecNumpy.
Context {np : Numpy}.

(** [analyser_marche(df)] *)
Definition analyser_marche (df : DataFrame)
  : M (retour_analyse * DataFrame) :=
  if empty df then ret (Couple (Some 0.0) None, df)
  else
    (* Calcul du prix au m² *)
    let df := affecte_prix_m2 df (valeur_sur_surface df) in
    (* Moyenne globale *)
    s <-- de_resultat (col_prix_m2 df) ;;
    let prix_moyen_global := mean s in
    (* Évolution par année *)
    let df := affecte_annee df (dt_year df) in
    evolution <-- de_resultat (evolution_par_annee df) ;;
    (* Statistiques *)
    s <-- de_resultat (col_prix_m2 df) ;;
    i_min <-- de_resultat (py_int (serie_min s)) ;;
    i_max <-- de_resultat (py_int (serie_max s)) ;;
    i_moyen <-- de_resultat (py_int prix_moyen_global) ;;
    i_mediane <-- de_resultat (py_int (median s)) ;;
    let stats := mk_stats_demo i_min i_max i_moyen i_mediane in
    (* Graphique *)
    a <-- de_resultat (col_annee df) ;;
    (* Ligne de tendance *)
    let z := polyfit (map fst evolution) (map snd evolution) in
    let fig :=
      [Plot (map fst evolution) (map snd evolution);
       Title ("Évolution du prix au m² - " ++ str_annee (annee_min a)
              ++ " à " ++ str_annee (annee_max a));
       PlotTendance (map fst evolution) (poly1d z (map fst evolution))
                    ("Tendance: +" ++ str_int (tronque (fst z)) ++ "€/an")] in
    ret (Triplet prix_moyen_global fig stats, df).

(** [main()] for one run of the page, from the current state of the
    global generator.  Lines that only repeat the inputs and the static
    help texts are left out of the trace. *)
Definition main (ui : saisie) (g : generateur) : M unit :=
  if estimer_button ui then
    (* Création du bien *)
    let mon_bien := mk_bien (input_insee ui) (input_ville ui)
                            (input_surface ui) (input_pieces ui)
                            (input_standing ui) in
    (* Récupération des données *)
    let df_transactions :=
      fst (DemoStreamlit.generer_donnees_demo (code_insee mon_bien) g) in
    if empty df_transactions then
      emet (StError "❌ Pas de données disponibles pour cette commune.")
    else
      (* Analyse *)
      r <-- analyser_marche df_transactions ;;
      t <-- de_resultat (depaquette (fst r)) ;;
      let '(prix_moyen_m2, fig, stats) := t in
      (* Ajustement selon le standing *)
      let e := Demo.estimer prix_moyen_m2 mon_bien in
      emet (StSuccess ("✅ Estimation réalisée pour " ++ ville mon_bien)) ;;;
      emet (StMetric "Prix minimum"
                     (format_milliers (demo_min stats) ++ " €/m²")) ;;;
      emet (StMetric "Prix moyen"
                     (format_milliers (demo_moyen stats) ++ " €/m²")) ;;;
      emet (StMetric "Prix maximum"
                     (format_milliers (demo_max stats) ++ " €/m²")) ;;;
      emet (StMetric "Médiane"
                     (format_milliers (demo_mediane stats) ++ " €/m²")) ;;;
      emet (StPyplot fig) ;;;
      i <-- de_resultat (py_int (Demo.fourchette_basse e)) ;;
      emet (StMetric "Fourchette basse (-5%)" (format_milliers i ++ " €")) ;;;
      i <-- de_resultat (py_int (Demo.estimation_finale e)) ;;
      emet (StMetric "VALEUR ESTIMÉE" (format_milliers i ++ " €")) ;;;
      i <-- de_resultat (py_int (Demo.fourchette_haute e)) ;;
      emet (StMetric "Fourchette haute (+5%)" (format_milliers i ++ " €")) ;;;
      emet (StInfo "ℹ️ Cette estimation est basée sur des données simulées à des fins de démonstration. En production, elle utiliserait les données réelles de DVF (Demandes de Valeurs Foncières).")
  else
    emet (StInfo "👈 Configurez les paramètres dans la barre latérale et cliquez sur **Estimer**").

End AvecNumpy.
End DemoPage.

(* ================================================================== *)
(** * The price column in IEEE doubles *)

(** The column operations of [analyser_marche] as pandas computes them, on
    binary64 floats with rounding to nearest: the quotient of the two base
    columns, the sum of a column from left to right, its mean (the sum
    over the count), its minimum and its maximum. *)
Module Double.
Import PrimFloat.

Definition double : Set := float.

(** [df['valeur_fonciere'] / df['surface_reelle_bati']] *)
Definition valeur_sur_surface (valeurs surfaces : list double)
  : list double :=
  map (fun p => (fst p / snd p)%float) (combine valeurs surfaces).

Definition somme (s : list double) : double := fold_left add s 0%float.

(** A count as a float. *)
Fixpoint de_nat (n : nat) : double :=
  match n with
  | O => 0%float
  | S k => (de_nat k + 1)%float
  end.

(** [s.mean()]; NaN (0/0) on an empty column. *)
Definition mean (s : list double) : double :=
  (somme s / de_nat (List.length s))%float.

(** [s.min()] and [s.max()]; NaN on an empty column. *)
Definition serie_min (s : list double) : double :=
  match s with
  | [] => nan
  | x :: t => fold_left (fun a y => if ltb y a then y else a) t x
  end.

Definition serie_max (s : list double) : double :=
  match s with
  | [] => nan
  | x :: t => fold_left (fun a y => if ltb a y then y else a) t x
  end.

(** [x < y] and [x == y] on floats, and the float that follows [x]. *)
Definition inferieur (x y : double) : bool := ltb x y.
Definition egal (x y : double) : bool := eqb x y.
Definition suivant (x : double) : double := next_up x.

(** The two base columns of three sales of 100000 for 34 square metres. *)
Definition valeurs_trois_ventes : list double :=
  [100000; 100000; 100000]%float.
Definition surfaces_trois_ventes : list double := [34; 34; 34]%float.

End Double.

(* ================================================================== *)
(** * Instances to run the model on examples *)

(** A least-squares line through the points whose ordinate is a number;
    any line would do where a statement does not depend on the fit. *)
Definition moindres_carres (xs : list Z) (ys : list pyfloat) : Q * Q :=
  let pts := flat_map (fun p => match snd p with
                                | Some y => [(inject_Z (fst p), y)]
                                | None => []
                                end) (combine xs ys) in
  let n := inject_Z (Z.of_nat (List.length pts)) in
  let sx := somme (map fst pts) in
  let sy := somme (map snd pts) in
  let sxx := somme (map (fun p => fst p * fst p) pts) in
  let sxy := somme (map (fun p => fst p * snd p) pts) in
  let pente := (n * sxy - sx * sy) / (n * sxx - sx * sx) in
  (Qred pente, Qred ((sy - pente * sx) / n)).

(** A small congruential generator. *)
Definition suivant (g : Z) : Z := ((1103515245 * g + 12345) mod 2147483648)%Z.

Definition numpy_exemple : Numpy := {|
  polyfit := moindres_carres;
  generateur := Z;
  seed := fun s => s;
  randint := fun lo hi g => ((lo + suivant g mod (hi - lo))%Z, suivant g);
  normal := fun mu sigma g =>
    (Qred (mu + sigma * (inject_Z (suivant g mod 200 - 100) / 100)), suivant g);
  uniform := fun lo hi g =>
    (Qred (lo + (hi - lo) * (inject_Z (suivant g mod 1000) / 1000)), suivant g)
|}.

(** A server that answers every request with one status and one body, and
    parsers for cells that hold an ISO date or an integer. *)
Definition chiffre (c : ascii) : option Z :=
  let n := Z.of_nat (nat_of_ascii c) in
  if ((48 <=? n) && (n <=? 57))%Z then Some (n - 48)%Z else None.

Fixpoint lit_entier (s : string) (acc : Z) : option Z :=
  match s with
  | EmptyString => Some acc
  | String c s' =>
      match chiffre c with
      | Some d => lit_entier s' (10 * acc + d)%Z
      | None => None
      end
  end.

Definition lit_nombre (s : string) : pyfloat :=
  match s with
  | EmptyString => None
  | _ => option_map inject_Z (lit_entier s 0)
  end.

Definition lit_date (s : string) : resultat (option datetime) :=
  match s with
  | EmptyString => Retour None
  | _ =>
      match lit_entier (String.substring 0 4 s) 0,
            lit_entier (String.substring 5 2 s) 0,
            lit_entier (String.substring 8 2 s) 0 with
      | Some y, Some m, Some d => Retour (Some (mk_datetime y m d))
      | _, _, _ => Leve (ValueError "Unknown datetime string format")
      end
  end.

Definition serveur (code : Z) (table : resultat table_brute) : Reseau := {|
  requests_get := fun _ => Retour (mk_reponse code "");
  read_csv := fun _ => table;
  to_datetime := lit_date;
  to_numeric := lit_nombre
|}.

(** A client whose connection fails. *)
Definition hors_ligne (msg : string) : Reseau := {|
  requests_get := fun _ => Leve (AutreException msg);
  read_csv := fun _ => Leve (AutreException msg);
  to_datetime := lit_date;
  to_numeric := lit_nombre
|}.

(** Small frames. *)
Definition vente (y : Z) (v s : Q) : transaction :=
  mk_transaction (mk_datetime y 6 15) v s.

(** Three sales in three years, at 1, 2 and 3 per square metre. *)
Definition df_trois_ans : DataFrame :=
  mk_df [vente 2021 100 100; vente 2022 400 200; vente 2023 900 300]
        None None.

(** One sale, at a price of zero. *)
Definition df_prix_nul : DataFrame := mk_df [vente 2021 0 1] None None.


(** Two sales of the same year at different prices. *)
Definition df_deux_ventes : DataFrame :=
  mk_df [vente 2023 100 100; vente 2023 400 200] None None.

(** Four sales at 2000 per square metre. *)
Definition df_a_2000 : DataFrame :=
  mk_df [vente 2021 100000 50; vente 2022 200000 100;
         vente 2022 150000 75; vente 2023 60000 30] None None.

(** A file of seven raw rows: three sales of dwellings with usable cells
    (at 2000, 3000 and 4000 per square metre), a sale of an outbuilding,
    an exchange, a sale without a value and a sale with an area of zero. *)
Definition table_exemple : table_brute :=
  mk_table_brute
    ["date_mutation"; "nature_mutation"; "valeur_fonciere"; "type_local";
     "surface_reelle_bati"]%string
    [mk_ligne_brute "Vente" "Maison" "2023-01-05" "200000" "100";
     mk_ligne_brute "Vente" "Appartement" "2023-02-05" "300000" "100";
     mk_ligne_brute "Vente" "Appartement" "2023-03-05" "400000" "100";
     mk_ligne_brute "Vente" "Dépendance" "2023-03-05" "1000" "10";
     mk_ligne_brute "Echange" "Maison" "2023-03-05" "1000" "10";
     mk_ligne_brute "Vente" "Maison" "2023-03-05" "" "10";
     mk_ligne_brute "Vente" "Maison" "2023-03-05" "5000" "0"]%string.

(** The frame the fetch makes of it. *)
Definition df_exemple : DataFrame :=
  mk_df [mk_transaction (mk_datetime 2023 1 5) (inject_Z 200000) (inject_Z 100);
         mk_transaction (mk_datetime 2023 2 5) (inject_Z 300000) (inject_Z 100);
         mk_transaction (mk_datetime 2023 3 5) (inject_Z 400000) (inject_Z 100)]
        None None.

(** A file of two sales of dwellings at 1000 and 2000 per square metre. *)
Definition table_deux_ventes : table_brute :=
  mk_table_brute
    ["date_mutation"; "nature_mutation"; "valeur_fonciere"; "type_local";
     "surface_reelle_bati"]%string
    [mk_ligne_brute "Vente" "Maison" "2023-01-05" "100000" "100";
     mk_ligne_brute "Vente" "Maison" "2023-02-05" "200000" "100"]%string.

(** A file of two gifts recorded as sales at a value of zero. *)
Definition table_valeur_nulle : table_brute :=
  mk_table_brute
    ["date_mutation"; "nature_mutation"; "valeur_fonciere"; "type_local";
     "surface_reelle_bati"]%string
    [mk_ligne_brute "Vente" "Maison" "2023-01-05" "0" "100";
     mk_ligne_brute "Vente" "Maison" "2023-02-05" "0" "80"]%string.

(** The entries of a user who asks for an estimation in Bordeaux. *)
Definition saisie_exemple : saisie :=
  mk_saisie "Bordeaux" "33063" 75.0 3 STANDARD true.

(* ================================================================== *)
(** * Vocabulary of the statements *)

(** Every record has a positive built area. *)
Definition aires_positives (df : DataFrame) : Prop :=
  Forall (fun t => 0 < surface_reelle_bati t) (lignes df).

(** The prices that stay within the band of the two quantiles: the column
    ['prix_m2'] of [df_clean]. *)
Definition serie_elaguee (s : Series) : Series :=
  filter (Dvf.dans_bande (quantile s 0.05) (quantile s 0.95)) s.

(** The statistics dictionary over a series, as [analyser_marche] of the
    DVF dashboard builds it. *)
Definition stats_de (s : Series) : resultat stats :=
  i_min <- py_int (serie_min s) ;;
  i_max <- py_int (serie_max s) ;;
  i_moyen <- py_int (mean s) ;;
  i_mediane <- py_int (median s) ;;
  Retour (mk_stats i_min i_max i_moyen i_mediane (List.length s)).

(** Python's [==] on floats. *)
Definition float_eq (x y : pyfloat) : Prop :=
  match x, y with
  | Some a, Some b => a == b
  | _, _ => False
  end.

(** The distinct years of a column, and their number. *)
Definition annees_distinctes (a : list Z) : list Z := nodup Z.eq_dec a.

(** The values recorded under key [k] in a list of (key, value) pairs. *)
Definition valeurs_de (k : Z) (paires : list (Z * Q)) : list Q :=
  map snd (filter (fun p => (fst p =? k)%Z) paires).

(** The prices of the records of one year. *)
Definition prix_de_l_annee (y : Z) (a : list Z) (s : list Q) : list Q :=
  valeurs_de y (combine a s).

(** The groups built so far hold, in ascending order of distinct keys,
    exactly the keys met and under each key the values met with it. *)
Definition groupes_corrects (g : list (Z * list Q)) (vus : list (Z * Q))
  : Prop :=
  StronglySorted Z.lt (map fst g) /\
  (forall k, In k (map fst g) <-> In k (map fst vus)) /\
  (forall k vs, In (k, vs) g -> vs = valeurs_de k vus).

(** A trend line is drawn. *)
Definition est_tendance (d : dessin) : bool :=
  match d with PlotTendance _ _ _ => true | _ => false end.


(** What [analyser_marche] of estimateur_demo.py prints, draws and saves,
    from the four statistics, the column of years and the yearly means. *)
Definition sortie_demo {np : Numpy} (mn mx mo md : Q) (a : list Z)
  (evolution : list (Z * pyfloat)) : list effet :=
  let z := polyfit (map fst evolution) (map snd evolution) in
  [PyPrint (nl ++ "📊 STATISTIQUES DU MARCHÉ");
   PyPrint ("Prix min  : " ++ str_int (tronque mn) ++ " €/m²");
   PyPrint ("Prix max  : " ++ str_int (tronque mx) ++ " €/m²");
   PyPrint ("Prix moyen: " ++ str_int (tronque mo) ++ " €/m²");
   PyPrint ("Médiane   : " ++ str_int (tronque md) ++ " €/m²");
   Plt (Plot (map fst evolution) (map snd evolution));
   Plt (Title ("Évolution du prix au m² - " ++ str_annee (annee_min a)
               ++ " à " ++ str_annee (annee_max a)));
   Plt (PlotTendance (map fst evolution) (poly1d z (map fst evolution))
                     ("Tendance: +" ++ str_int (tronque (fst z)) ++ "€/an"));
   Savefig "evolution_prix_m2.png";
   PyPrint (nl ++ "✅ Graphique sauvegardé : evolution_prix_m2.png");
   PltClose].

(** The figure of the DVF dashboard, from the yearly means. *)
Definition figure_dvf {np : Numpy} (evolution : list (Z * pyfloat)) : figure :=
  let z := polyfit (map fst evolution) (map snd evolution) in
  [Plot (map fst evolution) (map snd evolution);
   Title "Évolution du prix au m² - Données DVF réelles"]
  ++ (if (1 <? List.length evolution)%nat
      then [PlotTendance (map fst evolution) (poly1d z (map fst evolution))
                         ("Tendance: "
                          ++ (if Qlt_le_dec 0 (fst z) then "+" else "")
                          ++ str_int (tronque (fst z)) ++ "€/an")]
      else []).

(** The lower rank that [quantile] reads for level [q] in [n] values. *)
Definition rang_bas (q : Q) (n : nat) : nat :=
  Z.to_nat (Qfloor (q * inject_Z (Z.of_nat (n - 1)))).

(** The years of the records of [df_clean]. *)
Definition annees_elaguees (df : DataFrame) : list Z :=
  let s := valeur_sur_surface df in
  selection (map (Dvf.dans_bande (quantile s 0.05) (quantile s 0.95)) s)
            (dt_year df).

(** The draws of [generer_donnees_demo]: the day offsets, the noise on the
    price and the areas, in this order from the seed 42. *)
Definition tirages_demo {np : Numpy} : list Z * list Q * list Q :=
  let '(jours, g) := tirages 150 (randint 0 1825) (seed 42) in
  let '(bruit, g) := tirages 150 (normal 0 200) g in
  let '(surfaces, _) := tirages 150 (uniform 30 150) g in
  (jours, bruit, surfaces).

(** The price per square metre drawn for each transaction: the base of the
    year of its date, plus the noise. *)
Definition prix_tires {np : Numpy} : list Q :=
  let '(jours, bruit, _) := tirages_demo in
  map (fun p => inject_Z (2000 + (year (plus_jours (mk_datetime 2019 1 1)
                                                   (fst p)) - 2019) * 100)
                + snd p)
      (combine jours bruit).

(** numpy's contract for the two bounded draws of the generator: a day
    offset is within [0, 1825) and an area within [30, 150]. *)
Definition randint_borne {np : Numpy} : Prop :=
  forall g, (0 <= fst (randint 0 1825 g) < 1825)%Z.

Definition uniform_borne {np : Numpy} : Prop :=
  forall g, 30 <= fst (uniform 30 150 g) <= 150.

(** The integers a page shows for the band and the value. *)
Definition resultats_affiches (i_bas i_valeur i_haut : Z) : list effet :=
  [StMetric "Fourchette basse (-5%)" (format_milliers i_bas ++ " €");
   StMetric "VALEUR ESTIMÉE" (format_milliers i_valeur ++ " €");
   StMetric "Fourchette haute (+5%)" (format_milliers i_haut ++ " €")].

(** The four statistics a page shows. *)
Definition statistiques_affichees (i_min i_moyen i_max i_mediane : Z)
  : list effet :=
  [StMetric "Prix minimum" (format_milliers i_min ++ " €/m²");
   StMetric "Prix moyen" (format_milliers i_moyen ++ " €/m²");
   StMetric "Prix maximum" (format_milliers i_max ++ " €/m²");
   StMetric "Médiane" (format_milliers i_mediane ++ " €/m²")].

(** The test a raw row has to pass to end up in the frame of the fetch:
    the two filters on its labels, cells that [dropna] keeps, and the
    filter on the area. *)
Definition est_retenue {net : Reseau} (l : ligne_brute) : bool :=
  String.eqb (nature_mutation l) "Vente"
  && (String.eqb (type_local l) "Maison"
      || String.eqb (type_local l) "Appartement")
  && match to_datetime (date_brute l), to_numeric (valeur_brute l),
           to_numeric (surface_brute l) with
     | Retour (Some _), Some _, Some s =>
         if Qlt_le_dec 0 s then true else false
     | _, _, _ => false
     end.

(** A raw row that the fetch keeps, with the record it becomes. *)
Definition ligne_retenue {net : Reseau} (l : ligne_brute) (t : transaction)
  : Prop :=
  nature_mutation l = "Vente"%string /\
  (type_local l = "Maison"%string \/ type_local l = "Appartement"%string) /\
  to_datetime (date_brute l) = Retour (Some (date_mutation t)) /\
  to_numeric (valeur_brute l) = Some (valeur_fonciere t) /\
  to_numeric (surface_brute l) = Some (surface_reelle_bati t) /\
  0 < surface_reelle_bati t.

(* ================================================================== *)
(** * Facts on floats and series *)

Lemma tronque_croissante (x y : Q) : x <= y -> (tronque x <= tronque y)%Z.
Proof.
  intros Hxy. unfold tronque.
  destruct (Qle_bool 0 x) eqn:Hx; destruct (Qle_bool 0 y) eqn:Hy.
  - now apply Qfloor_resp_le.
  - apply Qle_bool_iff in Hx.
    assert (Hy' : ~ 0 <= y) by (rewrite <- Qle_bool_iff; congruence).
    exfalso. apply Hy'. now apply Qle_trans with x.
  - assert (Hx' : ~ 0 <= x) by (rewrite <- Qle_bool_iff; congruence).
    apply Qle_bool_iff in Hy.
    apply Z.le_trans with 0%Z.
    + change 0%Z with (Qceiling 0). apply Qceiling_resp_le.
      apply Qnot_le_lt in Hx'. now apply Qlt_le_weak.
    + change 0%Z with (Qfloor 0). now apply Qfloor_resp_le.
  - now apply Qceiling_resp_le.
Qed.

Lemma tronque_entier (z : Z) : tronque (inject_Z z) = z.
Proof.
  unfold tronque. destruct (Qle_bool 0 (inject_Z z)).
  - apply Qfloor_Z.
  - apply Qceiling_Z.
Qed.

Lemma tronque_comp (x y : Q) : x == y -> tronque x = tronque y.
Proof.
  intros H. apply Z.le_antisymm; apply tronque_croissante; rewrite H;
    apply Qle_refl.
Qed.

(** ** Minimum and maximum *)

Lemma fold_min_le_init (t : list Q) (x : Q) : fold_left Qmin t x <= x.
Proof.
  revert x. induction t as [|y t IH]; intros x; simpl.
  - apply Qle_refl.
  - eapply Qle_trans; [apply IH | apply Q.le_min_l].
Qed.

Lemma fold_min_le (t : list Q) (x y : Q) : In y t -> fold_left Qmin t x <= y.
Proof.
  revert x. induction t as [|z t IH]; intros x Hin; simpl.
  - destruct Hin.
  - destruct Hin as [<- | Hin].
    + eapply Qle_trans; [apply fold_min_le_init | apply Q.le_min_r].
    + now apply IH.
Qed.

Lemma fold_min_glb (t : list Q) (x a : Q) :
  a <= x -> (forall y, In y t -> a <= y) -> a <= fold_left Qmin t x.
Proof.
  revert x. induction t as [|z t IH]; intros x Hx Ht; simpl.
  - exact Hx.
  - apply IH.
    + apply Q.min_glb; [exact Hx | apply Ht; now left].
    + intros y Hy. apply Ht. now right.
Qed.

Lemma fold_max_ge_init (t : list Q) (x : Q) : x <= fold_left Qmax t x.
Proof.
  revert x. induction t as [|y t IH]; intros x; simpl.
  - apply Qle_refl.
  - eapply Qle_trans; [apply Q.le_max_l | apply IH].
Qed.

Lemma fold_max_ge (t : list Q) (x y : Q) : In y t -> y <= fold_left Qmax t x.
Proof.
  revert x. induction t as [|z t IH]; intros x Hin; simpl.
  - destruct Hin.
  - destruct Hin as [<- | Hin].
    + eapply Qle_trans; [apply Q.le_max_r | apply fold_max_ge_init].
    + now apply IH.
Qed.

Lemma fold_max_lub (t : list Q) (x b : Q) :
  x <= b -> (forall y, In y t -> y <= b) -> fold_left Qmax t x <= b.
Proof.
  revert x. induction t as [|z t IH]; intros x Hx Ht; simpl.
  - exact Hx.
  - apply IH.
    + apply Q.max_lub; [exact Hx | apply Ht; now left].
    + intros y Hy. apply Ht. now right.
Qed.

Lemma serie_min_minore (s : Series) (m y : Q) :
  serie_min s = Some m -> In y s -> m <= y.
Proof.
  destruct s as [|x t]; simpl; [discriminate|].
  intros [= <-] [<- | Hin].
  - apply fold_min_le_init.
  - now apply fold_min_le.
Qed.

Lemma serie_max_majore (s : Series) (m y : Q) :
  serie_max s = Some m -> In y s -> y <= m.
Proof.
  destruct s as [|x t]; simpl; [discriminate|].
  intros [= <-] [<- | Hin].
  - apply fold_max_ge_init.
  - now apply fold_max_ge.
Qed.

Lemma serie_min_glb (s : Series) (m a : Q) :
  serie_min s = Some m -> (forall y, In y s -> a <= y) -> a <= m.
Proof.
  destruct s as [|x t]; simpl; [discriminate|].
  intros [= <-] H. apply fold_min_glb.
  - apply H. now left.
  - intros y Hy. apply H. now right.
Qed.

Lemma serie_max_lub (s : Series) (m b : Q) :
  serie_max s = Some m -> (forall y, In y s -> y <= b) -> m <= b.
Proof.
  destruct s as [|x t]; simpl; [discriminate|].
  intros [= <-] H. apply fold_max_lub.
  - apply H. now left.
  - intros y Hy. apply H. now right.
Qed.

Lemma serie_min_defini (s : Series) :
  s <> [] -> exists m, serie_min s = Some m.
Proof. destruct s; [congruence | simpl; eauto]. Qed.

Lemma serie_max_defini (s : Series) :
  s <> [] -> exists m, serie_max s = Some m.
Proof. destruct s; [congruence | simpl; eauto]. Qed.

(** ** Mean *)

Lemma somme_minoree (s : Series) (a : Q) :
  (forall y, In y s -> a <= y) ->
  a * inject_Z (Z.of_nat (List.length s)) <= somme s.
Proof.
  induction s as [|x t IH]; intros H.
  - simpl. change (inject_Z 0) with 0. lra.
  - change (somme (x :: t)) with (x + somme t).
    replace (List.length (x :: t)) with (S (List.length t)) by reflexivity.
    rewrite Nat2Z.inj_succ. unfold Z.succ. rewrite inject_Z_plus.
    assert (a <= x) by (apply H; now left).
    assert (a * inject_Z (Z.of_nat (List.length t)) <= somme t)
      by (apply IH; intros y Hy; apply H; now right).
    change (inject_Z 1) with 1. lra.
Qed.

Lemma somme_majoree (s : Series) (b : Q) :
  (forall y, In y s -> y <= b) ->
  somme s <= b * inject_Z (Z.of_nat (List.length s)).
Proof.
  induction s as [|x t IH]; intros H.
  - simpl. change (inject_Z 0) with 0. lra.
  - change (somme (x :: t)) with (x + somme t).
    replace (List.length (x :: t)) with (S (List.length t)) by reflexivity.
    rewrite Nat2Z.inj_succ. unfold Z.succ. rewrite inject_Z_plus.
    assert (x <= b) by (apply H; now left).
    assert (somme t <= b * inject_Z (Z.of_nat (List.length t)))
      by (apply IH; intros y Hy; apply H; now right).
    change (inject_Z 1) with 1. lra.
Qed.

Lemma longueur_positive (A : Type) (x : A) (t : list A) :
  0 < inject_Z (Z.of_nat (List.length (x :: t))).
Proof.
  change 0 with (inject_Z 0). rewrite <- Zlt_Qlt. simpl List.length. lia.
Qed.

Lemma mean_encadree (s : Series) (m a b : Q) :
  mean s = Some m ->
  (forall y, In y s -> a <= y) -> (forall y, In y s -> y <= b) ->
  a <= m <= b.
Proof.
  destruct s as [|x t]; simpl mean; [discriminate|].
  intros [= <-] Ha Hb.
  pose proof (longueur_positive Q x t) as Hn.
  pose proof (somme_minoree (x :: t) a Ha) as H1.
  pose proof (somme_majoree (x :: t) b Hb) as H2.
  split.
  - apply Qle_shift_div_l; assumption.
  - apply Qle_shift_div_r; assumption.
Qed.

Lemma mean_defini (s : Series) : s <> [] -> exists m, mean s = Some m.
Proof. destruct s; [congruence | simpl; eauto]. Qed.

(** ** Sorting *)

Lemma insere_permutation (x : Q) (l : list Q) :
  Permutation (insere x l) (x :: l).
Proof.
  induction l as [|y l IH]; simpl.
  - apply Permutation_refl.
  - destruct (Qle_bool x y).
    + apply Permutation_refl.
    + eapply Permutation_trans; [apply perm_skip, IH | apply perm_swap].
Qed.

Lemma trie_permutation (s : Series) : Permutation (trie s) s.
Proof.
  induction s as [|x s IH]; simpl.
  - apply perm_nil.
  - eapply Permutation_trans; [apply insere_permutation|].
    now apply perm_skip.
Qed.

Lemma trie_longueur (s : Series) : List.length (trie s) = List.length s.
Proof. apply Permutation_length, trie_permutation. Qed.

Lemma trie_In (s : Series) (x : Q) : In x (trie s) <-> In x s.
Proof.
  split; apply Permutation_in;
    [apply trie_permutation | apply Permutation_sym, trie_permutation].
Qed.

Lemma insere_triee (x : Q) (l : list Q) :
  StronglySorted Qle l -> StronglySorted Qle (insere x l).
Proof.
  induction 1 as [|y l Hl IH Hy]; simpl.
  - constructor; constructor.
  - destruct (Qle_bool x y) eqn:Hxy.
    + apply Qle_bool_iff in Hxy. constructor.
      * now constructor.
      * constructor; [exact Hxy|].
        eapply Forall_impl; [|exact Hy].
        intros z Hz. now apply Qle_trans with y.
    + assert (Hyx : y <= x).
      { apply Qlt_le_weak, Qnot_le_lt. rewrite <- Qle_bool_iff. congruence. }
      constructor; [exact IH|].
      apply Forall_forall. intros z Hz.
      apply (Permutation_in _ (insere_permutation x l)) in Hz.
      destruct Hz as [<- | Hz]; [exact Hyx|].
      rewrite Forall_forall in Hy. now apply Hy.
Qed.

Lemma trie_triee (s : Series) : StronglySorted Qle (trie s).
Proof.
  induction s as [|x s IH]; simpl.
  - constructor.
  - now apply insere_triee.
Qed.

Lemma triee_nth (l : list Q) (i j : nat) :
  StronglySorted Qle l -> (i <= j)%nat -> (j < List.length l)%nat ->
  nth i l 0 <= nth j l 0.
Proof.
  intros Hs. revert i j.
  induction Hs as [|x l Hl IH Hx]; intros i j Hij Hj; simpl in Hj.
  - lia.
  - destruct i as [|i], j as [|j]; simpl.
    + apply Qle_refl.
    + rewrite Forall_forall in Hx. apply Hx, nth_In. lia.
    + lia.
    + apply IH; lia.
Qed.

(** ** Median *)

Lemma median_defini (s : Series) : s <> [] -> exists m, median s = Some m.
Proof.
  destruct s; [congruence|]. intros _. unfold median.
  destruct (Nat.even _); eauto.
Qed.

Lemma milieu_encadre (u : list Q) (m a b : Q) :
  u <> [] ->
  (forall i, (i < List.length u)%nat -> a <= nth i u 0 <= b) ->
  (if Nat.even (List.length u)
   then Some ((nth (List.length u / 2 - 1) u 0 + nth (List.length u / 2) u 0) / 2)
   else Some (nth (List.length u / 2) u 0)) = Some m ->
  a <= m <= b.
Proof.
  intros Hne Hnth Hm.
  assert (Hpos : (0 < List.length u)%nat)
    by (destruct u; [congruence | simpl; lia]).
  assert (Hmid : (List.length u / 2 < List.length u)%nat)
    by (apply Nat.div_lt; lia).
  remember (List.length u / 2)%nat as k eqn:Ek.
  destruct (Nat.even (List.length u)) eqn:Hpair; injection Hm as <-.
  - destruct (Hnth (k - 1)%nat) as [? ?]; [lia|].
    destruct (Hnth k) as [? ?]; [lia|].
    split.
    + apply Qle_shift_div_l; lra.
    + apply Qle_shift_div_r; lra.
  - now apply Hnth.
Qed.

Lemma median_encadree (s : Series) (m a b : Q) :
  median s = Some m ->
  (forall y, In y s -> a <= y) -> (forall y, In y s -> y <= b) ->
  a <= m <= b.
Proof.
  destruct s as [|x t]; [discriminate|].
  intros Hm Ha Hb.
  apply (milieu_encadre (trie (x :: t))).
  - intros E. apply (f_equal (@List.length Q)) in E.
    rewrite trie_longueur in E. discriminate.
  - intros i Hi. pose proof (nth_In (trie (x :: t)) 0 Hi) as Hin.
    apply (proj1 (trie_In (x :: t) _)) in Hin.
    split; [apply Ha | apply Hb]; exact Hin.
  - exact Hm.
Qed.

(* ================================================================== *)
(** * When the band keeps a record *)

Lemma rang_bas_borne (q : Q) (n : nat) :
  0 <= q <= 1 -> (1 <= n)%nat ->
  let rang := q * inject_Z (Z.of_nat (n - 1)) in
  (rang_bas q n <= n - 1)%nat /\
  inject_Z (Z.of_nat (rang_bas q n)) <= rang /\
  rang < inject_Z (Z.of_nat (rang_bas q n)) + 1.
Proof.
  intros [Hq0 Hq1] Hn rang. unfold rang_bas. fold rang.
  assert (HN : 0 <= inject_Z (Z.of_nat (n - 1))).
  { change 0 with (inject_Z 0). rewrite <- Zle_Qle. lia. }
  assert (Hr0 : 0 <= rang) by (now apply Qmult_le_0_compat).
  assert (Hr1 : rang <= inject_Z (Z.of_nat (n - 1))).
  { unfold rang. setoid_replace (inject_Z (Z.of_nat (n - 1)))
      with (1 * inject_Z (Z.of_nat (n - 1))) at 2 by ring.
    now apply Qmult_le_compat_r. }
  assert (Hf0 : (0 <= Qfloor rang)%Z).
  { change 0%Z with (Qfloor 0). now apply Qfloor_resp_le. }
  assert (Hf1 : (Qfloor rang <= Z.of_nat (n - 1))%Z).
  { rewrite <- (Qfloor_Z (Z.of_nat (n - 1))). now apply Qfloor_resp_le. }
  rewrite Z2Nat.id by exact Hf0.
  split; [lia|]. split; [apply Qfloor_le|].
  pose proof (Qlt_floor rang) as H. rewrite inject_Z_plus in H. exact H.
Qed.

Lemma interpolation_encadree (x y g : Q) :
  x <= y -> 0 <= g -> g <= 1 -> x <= x + (y - x) * g <= y.
Proof.
  intros Hxy Hg0 Hg1.
  assert (H1 : 0 <= (y - x) * g) by (apply Qmult_le_0_compat; lra).
  assert (H2 : 0 <= (y - x) * (1 - g)) by (apply Qmult_le_0_compat; lra).
  split; lra.
Qed.

(** A quantile lies between the values at its lower rank and at the next. *)
Lemma quantile_encadre (s : Series) (q v : Q) :
  0 <= q <= 1 -> quantile s q = Some v ->
  let n := List.length s in
  nth (rang_bas q n) (trie s) 0 <= v
  <= nth (Nat.min (S (rang_bas q n)) (n - 1)) (trie s) 0.
Proof.
  intros Hq Hv. cbv zeta. destruct s as [|x t]; [discriminate|].
  remember (List.length (x :: t)) as n eqn:En.
  assert (Hn : (1 <= n)%nat) by (subst n; simpl; lia).
  destruct (rang_bas_borne q n Hq Hn) as (Hb & Hlo & Hhi).
  assert (Hs : StronglySorted Qle (trie (x :: t))) by apply trie_triee.
  assert (Hl : List.length (trie (x :: t)) = n)
    by (rewrite trie_longueur; now subst n).
  unfold quantile in Hv. rewrite Hl in Hv. fold (rang_bas q n) in Hv.
  remember (trie (x :: t)) as u eqn:Eu.
  remember (rang_bas q n) as b eqn:Eb.
  remember (n - 1)%nat as m eqn:Em.
  injection Hv as <-.
  apply interpolation_encadree.
  - apply triee_nth; [exact Hs | lia | lia].
  - lra.
  - lra.
Qed.

(** With one price, or with three or more, the rank above the lower
    quantile is not beyond the rank below the upper one. *)
Lemma rangs_ordonnes (n : nat) :
  (n = 1 \/ 3 <= n)%nat ->
  (Nat.min (S (rang_bas 0.05 n)) (n - 1) <= rang_bas 0.95 n)%nat.
Proof.
  intros [-> | Hn].
  - vm_compute. lia.
  - apply Nat.le_trans with (S (rang_bas 0.05 n)); [apply Nat.le_min_l|].
    assert (H05 : 0 <= 0.05 <= 1) by (split; discriminate).
    assert (Hn1 : (1 <= n)%nat) by lia.
    destruct (rang_bas_borne 0.05 n H05 Hn1) as (_ & Hlo & _).
    assert (HN : 2 <= inject_Z (Z.of_nat (n - 1))).
    { change 2 with (inject_Z 2). rewrite <- Zle_Qle. lia. }
    assert (H : inject_Z (Z.of_nat (S (rang_bas 0.05 n)))
                <= 0.95 * inject_Z (Z.of_nat (n - 1))).
    { rewrite Nat2Z.inj_succ. unfold Z.succ. rewrite inject_Z_plus.
      change (inject_Z 1) with 1. lra. }
    apply Qfloor_resp_le in H. rewrite Qfloor_Z in H.
    unfold rang_bas at 2. lia.
Qed.

Lemma serie_elaguee_non_vide (s : Series) :
  (List.length s = 1 \/ 3 <= List.length s)%nat -> serie_elaguee s <> [].
Proof.
  intros Hn.
  assert (Hne : s <> []) by (destruct s; [simpl in Hn; lia | discriminate]).
  assert (H05 : 0 <= 0.05 <= 1) by (split; discriminate).
  assert (H95 : 0 <= 0.95 <= 1) by (split; discriminate).
  assert (Hn1 : (1 <= List.length s)%nat) by lia.
  destruct (quantile s 0.05) as [q1|] eqn:E1;
    [|destruct s; [congruence | discriminate]].
  destruct (quantile s 0.95) as [q99|] eqn:E2;
    [|destruct s; [congruence | discriminate]].
  pose proof (quantile_encadre s 0.05 q1 H05 E1) as [_ Hq1].
  pose proof (quantile_encadre s 0.95 q99 H95 E2) as [Hq99 _].
  cbv zeta in Hq1, Hq99.
  pose proof (rangs_ordonnes _ Hn) as Hr.
  destruct (rang_bas_borne 0.95 _ H95 Hn1) as (Hb & _ & _).
  set (i := Nat.min (S (rang_bas 0.05 (List.length s))) (List.length s - 1)) in *.
  assert (Hi : (i < List.length (trie s))%nat) by (rewrite trie_longueur; lia).
  assert (Hmid : nth i (trie s) 0 <= nth (rang_bas 0.95 (List.length s)) (trie s) 0).
  { apply triee_nth; [apply trie_triee | exact Hr |].
    rewrite trie_longueur. lia. }
  assert (Hin : In (nth i (trie s) 0) (serie_elaguee s)).
  { unfold serie_elaguee. apply filter_In. split.
    - apply (proj1 (trie_In s _)). now apply nth_In.
    - rewrite E1, E2. unfold Dvf.dans_bande, ge_float, le_float.
      apply andb_true_iff. split; apply Qle_bool_iff; [exact Hq1|].
      now apply Qle_trans with (nth (rang_bas 0.95 (List.length s)) (trie s) 0). }
  intros E. rewrite E in Hin. destruct Hin.
Qed.

(* ================================================================== *)
(** * The analysers in closed form *)

Lemma selection_filter (A : Type) (f : A -> bool) (l : list A) :
  selection (map f l) l = filter f l.
Proof.
  induction l as [|x l IH]; simpl; [reflexivity|].
  destruct (f x); now rewrite IH.
Qed.

Lemma selection_map (A B : Type) (g : A -> B) (mask : list bool) (l : list A) :
  selection mask (map g l) = map g (selection mask l).
Proof.
  revert l. induction mask as [|b mask IH]; intros [|x l]; simpl;
    try reflexivity.
  destruct b; simpl; now rewrite IH.
Qed.

Lemma selection_longueur (A B : Type) (mask : list bool)
  (l : list A) (l' : list B) :
  List.length l = List.length l' ->
  List.length (selection mask l) = List.length (selection mask l').
Proof.
  revert l l'. induction mask as [|b mask IH]; intros [|x l] [|y l'];
    simpl; try reflexivity; try discriminate.
  intros [= H]. destruct b; simpl; now rewrite (IH l l' H).
Qed.

Lemma valeur_sur_surface_non_vide (df : DataFrame) :
  lignes df <> [] -> valeur_sur_surface df <> [].
Proof.
  unfold valeur_sur_surface. destruct (lignes df); [congruence | discriminate].
Qed.

Lemma empty_faux (df : DataFrame) : lignes df <> [] -> empty df = false.
Proof. unfold empty. destruct (lignes df); congruence. Qed.

Lemma empty_vrai (df : DataFrame) : empty df = true -> lignes df = [].
Proof. unfold empty. destruct (lignes df); congruence. Qed.

Section Analyseurs.
Context {np : Numpy}.

(** On a non-empty frame the demo analyser neither raises nor skips a step. *)
Lemma demo_analyser_forme (df : DataFrame) :
  lignes df <> [] ->
  let s := valeur_sur_surface df in
  exists mn mx mo md,
    serie_min s = Some mn /\ serie_max s = Some mx /\
    mean s = Some mo /\ median s = Some md /\
    Demo.analyser_marche df =
      (Retour (Some mo, mk_df (lignes df) (Some s) (Some (dt_year df))),
       sortie_demo mn mx mo md (dt_year df)
                   (moyenne_par_annee (dt_year df) s)).
Proof.
  intros Hne s.
  pose proof (valeur_sur_surface_non_vide df Hne) as Hs.
  destruct (serie_min_defini s Hs) as [mn Hmn].
  destruct (serie_max_defini s Hs) as [mx Hmx].
  destruct (mean_defini s Hs) as [mo Hmo].
  destruct (median_defini s Hs) as [md Hmd].
  exists mn, mx, mo, md. repeat (split; [assumption|]).
  unfold Demo.analyser_marche. rewrite (empty_faux df Hne).
  cbn [col_prix_m2 affecte_prix_m2 affecte_annee prix_m2 annee de_resultat
       lie evolution_par_annee col_annee bind].
  fold s. rewrite Hmn, Hmx, Hmo, Hmd.
  reflexivity.
Qed.

(** The DVF analyser computes everything over the trimmed prices. *)
Lemma dvf_analyser_forme (df : DataFrame) :
  lignes df <> [] ->
  let s := valeur_sur_surface df in
  Dvf.analyser_marche df =
    match stats_de (serie_elaguee s) with
    | Retour st =>
        (Retour (mean (serie_elaguee s),
                 Some (figure_dvf (moyenne_par_annee (annees_elaguees df)
                                                     (serie_elaguee s))),
                 Some st,
                 mk_df (lignes df) (Some s) (annee df)),
         [])
    | Leve e => (Leve e, [])
    end.
Proof.
  intros Hne s.
  unfold Dvf.analyser_marche. rewrite (empty_faux df Hne).
  cbn [col_prix_m2 affecte_prix_m2 affecte_annee prix_m2 annee de_resultat
       lie evolution_par_annee col_annee bind df_selection option_map
       lignes].
  fold s. rewrite (selection_filter Q). fold (serie_elaguee s).
  unfold stats_de.
  destruct (py_int (serie_min (serie_elaguee s))) as [i1|e]; [|reflexivity].
  destruct (py_int (serie_max (serie_elaguee s))) as [i2|e]; [|reflexivity].
  destruct (py_int (mean (serie_elaguee s))) as [i3|e]; [|reflexivity].
  destruct (py_int (median (serie_elaguee s))) as [i4|e]; [|reflexivity].
  cbn [bind lie de_resultat ret app].
  set (mask := map (Dvf.dans_bande (quantile s 0.05) (quantile s 0.95)) s).
  assert (E1 : dt_year (df_selection (affecte_prix_m2 df s) mask)
               = annees_elaguees df).
  { unfold annees_elaguees. cbv zeta. fold s. fold mask.
    unfold dt_year, df_selection. cbn [lignes affecte_prix_m2].
    now rewrite selection_map. }
  assert (E2 : len (affecte_annee (df_selection (affecte_prix_m2 df s) mask)
                                  (annees_elaguees df))
               = List.length (serie_elaguee s)).
  { unfold len, serie_elaguee. cbn [lignes affecte_annee df_selection
                                    affecte_prix_m2].
    rewrite <- (selection_filter Q). fold mask.
    unfold s, valeur_sur_surface. rewrite selection_map. now rewrite length_map. }
  rewrite E1, E2. unfold figure_dvf.
  destruct (1 <? _)%nat; reflexivity.
Qed.

End Analyseurs.

(* ================================================================== *)
(** * Statistics within their range *)

Lemma serie_encadree (s : Series) (mn mx mo md : Q) :
  serie_min s = Some mn -> serie_max s = Some mx ->
  mean s = Some mo -> median s = Some md ->
  mn <= mo <= mx /\ mn <= md <= mx.
Proof.
  intros Hmn Hmx Hmo Hmd. split.
  - apply (mean_encadree s); [exact Hmo | |].
    + intros y. now apply serie_min_minore.
    + intros y. now apply serie_max_majore.
  - apply (median_encadree s); [exact Hmd | |].
    + intros y. now apply serie_min_minore.
    + intros y. now apply serie_max_majore.
Qed.

Lemma stats_de_inv (s : Series) (st : stats) :
  stats_de s = Retour st ->
  exists mn mx mo md,
    serie_min s = Some mn /\ serie_max s = Some mx /\
    mean s = Some mo /\ median s = Some md /\
    st = mk_stats (tronque mn) (tronque mx) (tronque mo) (tronque md)
                  (List.length s).
Proof.
  unfold stats_de.
  destruct (serie_min s) as [mn|]; [|discriminate].
  destruct (serie_max s) as [mx|]; [|discriminate].
  destruct (mean s) as [mo|]; [|discriminate].
  destruct (median s) as [md|]; [|discriminate].
  cbn [py_int bind]. intros [= <-].
  exists mn, mx, mo, md. repeat split; reflexivity.
Qed.

Lemma stats_de_leve (s : Series) (e : exn) :
  stats_de s = Leve e ->
  s = [] /\ e = ValueError "cannot convert float NaN to integer".
Proof.
  destruct s as [|x t].
  - cbn. intros [= <-]. split; reflexivity.
  - unfold stats_de.
    destruct (median_defini (x :: t)) as [md ->]; [discriminate|].
    cbn. discriminate.
Qed.

Section Encadrement.
Context {np : Numpy}.

(** What the DVF analyser returns, when it returns. *)
Lemma dvf_analyser_retour (df : DataFrame) p fig st df' t :
  lignes df <> [] ->
  Dvf.analyser_marche df = (Retour (p, fig, st, df'), t) ->
  let sc := serie_elaguee (valeur_sur_surface df) in
  exists st0,
    stats_de sc = Retour st0 /\ st = Some st0 /\ p = mean sc /\
    fig = Some (figure_dvf (moyenne_par_annee (annees_elaguees df) sc)) /\
    df' = mk_df (lignes df) (Some (valeur_sur_surface df)) (annee df) /\
    t = [].
Proof.
  intros Hne H sc. rewrite (dvf_analyser_forme df Hne) in H. fold sc in H.
  destruct (stats_de sc) as [st0|e]; [|discriminate].
  injection H as <- <- <- <- <-. exists st0. repeat split; reflexivity.
Qed.

(** With one record, or with three or more, the DVF analyser returns. *)
Lemma dvf_analyser_retourne (df : DataFrame) :
  (len df = 1 \/ 3 <= len df)%nat ->
  exists p fig st df',
    Dvf.analyser_marche df = (Retour (p, Some fig, Some st, df'), []).
Proof.
  intros Hn.
  assert (Hne : lignes df <> [])
    by (unfold len in Hn; destruct (lignes df); [simpl in Hn; lia | discriminate]).
  assert (Hsc : serie_elaguee (valeur_sur_surface df) <> []).
  { apply serie_elaguee_non_vide. unfold valeur_sur_surface.
    rewrite length_map. exact Hn. }
  rewrite (dvf_analyser_forme df Hne).
  destruct (stats_de (serie_elaguee (valeur_sur_surface df))) as [st|e] eqn:E.
  - eexists _, _, _, _. reflexivity.
  - apply stats_de_leve in E as [E _]. contradiction.
Qed.

(** C5, as the code has it.  On every non-empty frame with positive
    areas the minimum, the median and the maximum are ordered:
    min <= median <= max, for the values and for the integers shown.  The
    demo analyser always returns them (over all prices); the DVF analyser
    returns them over the trimmed prices, which it does at least for every
    frame of one record or of three or more.  Nothing is stated of the
    mean: it is a rounded sum over the count. *)
Theorem C5_mediane_encadree (df : DataFrame) :
  lignes df <> [] -> aires_positives df ->
  (exists mn mx mo md,
      Demo.analyser_marche df =
        (Retour (Some mo,
                 mk_df (lignes df) (Some (valeur_sur_surface df))
                       (Some (dt_year df))),
         sortie_demo mn mx mo md (dt_year df)
           (moyenne_par_annee (dt_year df) (valeur_sur_surface df))) /\
      serie_min (valeur_sur_surface df) = Some mn /\
      serie_max (valeur_sur_surface df) = Some mx /\
      median (valeur_sur_surface df) = Some md /\
      mn <= md <= mx /\
      (tronque mn <= tronque md <= tronque mx)%Z) /\
  (forall p fig st df' t,
      Dvf.analyser_marche df = (Retour (p, fig, Some st, df'), t) ->
      (exists mn mx md,
          serie_min (serie_elaguee (valeur_sur_surface df)) = Some mn /\
          serie_max (serie_elaguee (valeur_sur_surface df)) = Some mx /\
          median (serie_elaguee (valeur_sur_surface df)) = Some md /\
          stat_min st = tronque mn /\ stat_max st = tronque mx /\
          stat_mediane st = tronque md /\
          mn <= md <= mx) /\
      (stat_min st <= stat_mediane st <= stat_max st)%Z) /\
  ((len df = 1 \/ 3 <= len df)%nat ->
   exists p fig st df',
     Dvf.analyser_marche df = (Retour (p, Some fig, Some st, df'), [])).
Proof.
  intros Hne _. split; [|split; [|apply dvf_analyser_retourne]].
  - destruct (demo_analyser_forme df Hne)
      as (mn & mx & mo & md & Hmn & Hmx & Hmo & Hmd & E).
    destruct (serie_encadree _ _ _ _ _ Hmn Hmx Hmo Hmd) as [_ [? ?]].
    exists mn, mx, mo, md.
    repeat split; try assumption; now apply tronque_croissante.
  - intros p fig st df' t H.
    destruct (dvf_analyser_retour df _ _ _ _ _ Hne H)
      as (st0 & Hst & [= <-] & -> & _).
    destruct (stats_de_inv _ _ Hst)
      as (mn & mx & mo & md & Hmn & Hmx & Hmo & Hmd & ->).
    destruct (serie_encadree _ _ _ _ _ Hmn Hmx Hmo Hmd) as [_ [? ?]].
    split; [|cbn [stat_min stat_max stat_mediane];
             split; now apply tronque_croissante].
    exists mn, mx, md. cbn [stat_min stat_max stat_mediane].
    repeat split; assumption.
Qed.

End Encadrement.

Lemma C5_temoin :
  lignes df_trois_ans <> [] /\ aires_positives df_trois_ans /\
  exists md, median (valeur_sur_surface df_trois_ans) = Some md /\
             1 <= md <= 3.
Proof.
  assert (H1 : lignes df_trois_ans <> []) by discriminate.
  assert (H2 : aires_positives df_trois_ans)
    by (repeat constructor).
  split; [exact H1 | split; [exact H2|]].
  destruct (C5_mediane_encadree (np := numpy_exemple) df_trois_ans H1 H2)
    as [(mn & mx & mo & md & _ & Hmn & Hmx & Hmd & Hb & _) _].
  exists md. split; [exact Hmd|].
  injection Hmn as <-. injection Hmx as <-. destruct Hb as [Ha Hb].
  split.
  - eapply Qle_trans; [|exact Ha]. vm_compute. discriminate.
  - eapply Qle_trans; [exact Hb|]. vm_compute. discriminate.
Defined.

(** C5 as stated fails for the mean.  Three sales of 100000 for 34 square
    metres have the same price, 2941.176470588235, which is the minimum
    and the maximum of the column; the sum of the three, divided by 3, is
    2941.1764705882356, the next float above the maximum. *)
Lemma C5_contre_exemple :
  let s := Double.valeur_sur_surface Double.valeurs_trois_ventes
                                     Double.surfaces_trois_ventes in
  Double.egal (Double.serie_min s) (Double.serie_max s) = true /\
  Double.inferieur (Double.serie_max s) (Double.mean s) = true /\
  Double.mean s = Double.suivant (Double.serie_max s).
Proof.
  cbv zeta. repeat split; vm_compute; reflexivity.
Qed.

(* ================================================================== *)
(** * Trimming *)

Lemma serie_elaguee_incluse (s : Series) (x : Q) :
  In x (serie_elaguee s) -> In x s.
Proof. unfold serie_elaguee. intros H. now apply filter_In in H. Qed.

Lemma serie_elaguee_bande (s : Series) (x : Q) :
  In x (serie_elaguee s) ->
  exists q1 q99, quantile s 0.05 = Some q1 /\ quantile s 0.95 = Some q99 /\
                 q1 <= x <= q99.
Proof.
  unfold serie_elaguee. intros H. apply filter_In in H as [_ H].
  unfold Dvf.dans_bande, ge_float, le_float in H.
  destruct (quantile s 0.05) as [q1|]; [|discriminate].
  destruct (quantile s 0.95) as [q99|];
    [|rewrite andb_false_r in H; discriminate].
  apply andb_true_iff in H as [H1 H2].
  apply Qle_bool_iff in H1, H2. exists q1, q99. repeat split; assumption.
Qed.

Section Elagage.
Context {np : Numpy}.

(** C6.  On every non-empty frame, each price kept by the trimming lies
    between the minimum and the maximum of all prices; so when the DVF
    analyser returns statistics, their minimum is not below and their
    maximum not above those of the untrimmed prices, for the values and
    for the integers reported. *)
Theorem C6_elagage_dans_l_etendue (df : DataFrame) :
  lignes df <> [] ->
  exists mn mx,
    serie_min (valeur_sur_surface df) = Some mn /\
    serie_max (valeur_sur_surface df) = Some mx /\
    (forall x, In x (serie_elaguee (valeur_sur_surface df)) ->
               mn <= x <= mx) /\
    (forall p fig st df' t,
        Dvf.analyser_marche df = (Retour (p, fig, Some st, df'), t) ->
        exists mn' mx',
          serie_min (serie_elaguee (valeur_sur_surface df)) = Some mn' /\
          serie_max (serie_elaguee (valeur_sur_surface df)) = Some mx' /\
          stat_min st = tronque mn' /\ stat_max st = tronque mx' /\
          mn <= mn' /\ mx' <= mx /\
          (tronque mn <= stat_min st)%Z /\ (stat_max st <= tronque mx)%Z).
Proof.
  intros Hne.
  pose proof (valeur_sur_surface_non_vide df Hne) as Hs.
  destruct (serie_min_defini _ Hs) as [mn Hmn].
  destruct (serie_max_defini _ Hs) as [mx Hmx].
  exists mn, mx.
  assert (Hin : forall x, In x (serie_elaguee (valeur_sur_surface df)) ->
                          mn <= x <= mx).
  { intros x Hx. apply serie_elaguee_incluse in Hx. split.
    - now apply (serie_min_minore _ _ _ Hmn).
    - now apply (serie_max_majore _ _ _ Hmx). }
  repeat (split; [assumption|]).
  intros p fig st df' t H.
  destruct (dvf_analyser_retour df _ _ _ _ _ Hne H)
    as (st0 & Hst & [= <-] & _).
  destruct (stats_de_inv _ _ Hst)
    as (mn' & mx' & mo & md & Hmn' & Hmx' & _ & _ & ->).
  assert (H1 : mn <= mn').
  { apply (serie_min_glb _ _ _ Hmn'). intros y Hy. now apply Hin. }
  assert (H2 : mx' <= mx).
  { apply (serie_max_lub _ _ _ Hmx'). intros y Hy. now apply Hin. }
  exists mn', mx'. cbn [stat_min stat_max].
  repeat split; try assumption; try reflexivity;
    now apply tronque_croissante.
Qed.

End Elagage.

Lemma C6_temoin :
  lignes df_trois_ans <> [] /\
  exists mn mx,
    serie_min (valeur_sur_surface df_trois_ans) = Some mn /\
    serie_max (valeur_sur_surface df_trois_ans) = Some mx /\
    forall x, In x (serie_elaguee (valeur_sur_surface df_trois_ans)) ->
              mn <= x <= mx.
Proof.
  assert (H1 : lignes df_trois_ans <> []) by discriminate.
  split; [exact H1|].
  destruct (C6_elagage_dans_l_etendue (np := numpy_exemple) df_trois_ans H1)
    as (mn & mx & Hmn & Hmx & Hin & _).
  exists mn, mx. repeat split; try assumption; now apply Hin.
Defined.

(* ================================================================== *)
(** * Empty input *)

Section Vide.
Context {np : Numpy}.

(** C1, as the code has it.  On an empty frame both analysers return the
    number 0.0 as the price (the DVF dashboard with neither figure nor
    statistics), leave the frame as it is, and print, draw and save
    nothing. *)
Theorem C1_entree_vide_retourne_zero (df : DataFrame) :
  empty df = true ->
  Demo.analyser_marche df = (Retour (Some 0.0, df), []) /\
  Dvf.analyser_marche df = (Retour (Some 0.0, None, None, df), []).
Proof.
  intros H. unfold Demo.analyser_marche, Dvf.analyser_marche.
  rewrite H. split; reflexivity.
Qed.

End Vide.

Lemma C1_temoin :
  empty df_vide = true /\
  Demo.analyser_marche (np := numpy_exemple) df_vide
  = (Retour (Some 0.0, df_vide), []).
Proof.
  split; [reflexivity|].
  exact (proj1 (C1_entree_vide_retourne_zero (np := numpy_exemple)
                  df_vide eq_refl)).
Defined.

(** C1 as stated fails: the empty frame gives the plain number 0.0, which
    is also, under Python's [==], the price computed from a frame that has
    data (one sale at a price of zero); the test [prix_moyen_m2 == 0] of
    the dashboard holds for both. *)
Lemma C1_contre_exemple :
  fst (Demo.analyser_marche (np := numpy_exemple) df_vide)
  = Retour (Some 0.0, df_vide) /\
  (exists p df', fst (Demo.analyser_marche (np := numpy_exemple) df_prix_nul)
                 = Retour (p, df') /\ empty df_prix_nul = false /\
                 float_eq p (Some 0.0)) /\
  (exists fig st df',
      fst (Dvf.analyser_marche (np := numpy_exemple) df_vide)
      = Retour (Some 0.0, fig, st, df')) /\
  (exists p fig st df',
      fst (Dvf.analyser_marche (np := numpy_exemple) df_prix_nul)
      = Retour (p, Some fig, Some st, df') /\ est_zero p = true) /\
  est_zero (Some 0.0) = true.
Proof.
  split; [reflexivity|]. split; [|split; [|split]].
  - eexists _, _. split; [vm_compute; reflexivity|].
    split; [reflexivity|]. vm_compute. reflexivity.
  - eexists _, _, _. reflexivity.
  - eexists _, _, _, _. split; [vm_compute; reflexivity | reflexivity].
  - reflexivity.
Qed.

(** ** No fallback *)

Lemma Qle_bool_vrai (x y : Q) : x <= y -> Qle_bool x y = true.
Proof. apply Qle_bool_iff. Qed.

Lemma Qle_bool_faux (x y : Q) : y < x -> Qle_bool x y = false.
Proof.
  intros H. destruct (Qle_bool x y) eqn:E; [|reflexivity].
  apply Qle_bool_iff in E. exfalso. now apply (Qlt_not_le y x).
Qed.

(** Of three distinct prices only the middle one is within the band. *)
Lemma trois_prix_distincts (a b c : Q) :
  a < b -> b < c -> serie_elaguee [a; b; c] = [b].
Proof.
  intros Hab Hbc.
  assert (Ht : trie [a; b; c] = [a; b; c]).
  { unfold trie. cbn [fold_right insere].
    rewrite (Qle_bool_vrai b c) by now apply Qlt_le_weak.
    cbn [insere]. rewrite (Qle_bool_vrai a b) by now apply Qlt_le_weak.
    reflexivity. }
  assert (Hq1 : quantile [a; b; c] 0.05 = Some (a + (b - a) * (0.05 * 2 - 0))).
  { unfold quantile. rewrite Ht. reflexivity. }
  assert (Hq99 : quantile [a; b; c] 0.95 = Some (b + (c - b) * (0.95 * 2 - 1))).
  { unfold quantile. rewrite Ht. reflexivity. }
  unfold serie_elaguee. rewrite Hq1, Hq99.
  unfold Dvf.dans_bande, ge_float, le_float. cbn [filter].
  rewrite (Qle_bool_faux _ a) by lra.
  rewrite (Qle_bool_vrai _ b) by lra.
  rewrite (Qle_bool_vrai b) by lra.
  rewrite (Qle_bool_faux c), andb_false_r by lra.
  reflexivity.
Qed.

(** Of two distinct prices none is within the band. *)
Lemma deux_prix_distincts (a b : Q) :
  a < b -> serie_elaguee [a; b] = [] /\ serie_elaguee [b; a] = [].
Proof.
  intros Hab.
  assert (Ht : trie [a; b] = [a; b]).
  { unfold trie. cbn [fold_right insere].
    now rewrite (Qle_bool_vrai a b) by now apply Qlt_le_weak. }
  assert (Ht' : trie [b; a] = [a; b]).
  { unfold trie. cbn [fold_right insere].
    now rewrite (Qle_bool_faux b a) by assumption. }
  assert (Hq : forall l, trie l = [a; b] -> l <> [] ->
                 quantile l 0.05 = Some (a + (b - a) * (0.05 * 1 - 0)) /\
                 quantile l 0.95 = Some (a + (b - a) * (0.95 * 1 - 0))).
  { intros l Hl Hne. unfold quantile. destruct l; [congruence|].
    rewrite Hl. split; reflexivity. }
  split.
  - destruct (Hq [a; b] Ht) as [H1 H2]; [discriminate|].
    unfold serie_elaguee. rewrite H1, H2.
    unfold Dvf.dans_bande, ge_float, le_float. cbn [filter].
    rewrite (Qle_bool_faux _ a) by lra.
    rewrite (Qle_bool_faux b), andb_false_r by lra.
    reflexivity.
  - destruct (Hq [b; a] Ht') as [H1 H2]; [discriminate|].
    unfold serie_elaguee. rewrite H1, H2.
    unfold Dvf.dans_bande, ge_float, le_float. cbn [filter].
    rewrite (Qle_bool_faux b), andb_false_r by lra.
    rewrite (Qle_bool_faux _ a) by lra.
    reflexivity.
Qed.

Section SansRepli.
Context {np : Numpy}.

(** C3, as the code has it.  Whenever the band keeps at least one price,
    the DVF analyser returns the statistics of the kept prices and of
    nothing else, however few they are: there is no return to the
    untrimmed prices. *)
Theorem C3_statistiques_sur_la_serie_elaguee (df : DataFrame) :
  lignes df <> [] ->
  serie_elaguee (valeur_sur_surface df) <> [] ->
  exists st,
    stats_de (serie_elaguee (valeur_sur_surface df)) = Retour st /\
    nb_transactions st = List.length (serie_elaguee (valeur_sur_surface df)) /\
    Dvf.analyser_marche df =
      (Retour (mean (serie_elaguee (valeur_sur_surface df)),
               Some (figure_dvf
                       (moyenne_par_annee
                          (annees_elaguees df)
                          (serie_elaguee (valeur_sur_surface df)))),
               Some st,
               mk_df (lignes df) (Some (valeur_sur_surface df)) (annee df)),
       []).
Proof.
  intros Hne Hsc. rewrite (dvf_analyser_forme df Hne).
  destruct (stats_de (serie_elaguee (valeur_sur_surface df))) as [st|e] eqn:E.
  - exists st. split; [reflexivity|]. split; [|reflexivity].
    destruct (stats_de_inv _ _ E) as (? & ? & ? & ? & _ & _ & _ & _ & ->).
    reflexivity.
  - apply stats_de_leve in E as [E _]. contradiction.
Qed.

(** The frame of two sales of one year at different prices: the band is
    empty and building the statistics raises. *)
Lemma dvf_deux_ventes_leve :
  Dvf.analyser_marche df_deux_ventes
  = (Leve (ValueError "cannot convert float NaN to integer"), []).
Proof.
  rewrite dvf_analyser_forme by discriminate.
  assert (E : serie_elaguee (valeur_sur_surface df_deux_ventes) = []).
  { refine (proj1 (deux_prix_distincts (ratio (vente 2023 100 100))
                                        (ratio (vente 2023 400 200)) _)).
    vm_compute. reflexivity. }
  rewrite E. reflexivity.
Qed.

End SansRepli.

Lemma C3_temoin :
  lignes df_trois_ans <> [] /\
  serie_elaguee (valeur_sur_surface df_trois_ans) <> [] /\
  exists st,
    stats_de (serie_elaguee (valeur_sur_surface df_trois_ans)) = Retour st /\
    nb_transactions st = 1%nat.
Proof.
  assert (H1 : lignes df_trois_ans <> []) by discriminate.
  assert (E : serie_elaguee (valeur_sur_surface df_trois_ans)
              = [ratio (vente 2022 400 200)]).
  { apply trois_prix_distincts; vm_compute; reflexivity. }
  assert (H2 : serie_elaguee (valeur_sur_surface df_trois_ans) <> [])
    by (rewrite E; discriminate).
  split; [exact H1 | split; [exact H2|]].
  destruct (C3_statistiques_sur_la_serie_elaguee (np := numpy_exemple)
              df_trois_ans H1 H2) as (st & Hst & Hn & _).
  exists st. split; [exact Hst|]. rewrite Hn, E. reflexivity.
Defined.

(** C3 as stated fails: for three sales at 1, 2 and 3 per square metre the
    trimming leaves one price, fewer than two, and the statistics returned
    are those of that single price, not those of the three. *)
Lemma C3_contre_exemple :
  (List.length (serie_elaguee (valeur_sur_surface df_trois_ans)) < 2)%nat /\
  fst (Dvf.analyser_marche (np := numpy_exemple) df_trois_ans)
  = Retour (Some (400 # 200),
            Some [Plot [2022%Z] [Some (400 # 200)];
                  Title "Évolution du prix au m² - Données DVF réelles"],
            Some (mk_stats 2 2 2 2 1),
            mk_df (lignes df_trois_ans)
                  (Some (valeur_sur_surface df_trois_ans)) None) /\
  stats_de (valeur_sur_surface df_trois_ans) = Retour (mk_stats 1 3 2 2 3).
Proof.
  split; [vm_compute; lia|]. split; vm_compute; reflexivity.
Qed.

(* ================================================================== *)
(** * Effects of the analysis *)

Section Effets.
Context {np : Numpy}.


End Effets.



(* ================================================================== *)
(** * Valuation *)

Lemma mean_constante (s : Series) (c m : Q) :
  (forall y, In y s -> y == c) -> mean s = Some m -> m == c.
Proof.
  intros Hc Hm.
  destruct (mean_encadree s m c c Hm) as [H1 H2].
  - intros y Hy. rewrite (Hc y Hy). apply Qle_refl.
  - intros y Hy. rewrite (Hc y Hy). apply Qle_refl.
  - now apply Qle_antisym.
Qed.

Section Estimation.
Context {np : Numpy}.

(** C2.  The valuation multiplies the mean price by the coefficient of the
    category (0.85, 1.0, 1.20), then by the area of the property, and
    reports the band from 0.95 to 1.05 times the value.  On any frame whose
    records all stand at 2000 per square metre, a Standard property of
    75 square metres is valued 150000, between 142500 and 157500, also as
    the integers that are displayed. *)
Theorem C2_estimation :
  (forall (m a : Q) (c : Standing) (insee nom : string) (pieces : Z),
      Demo.estimer (Some m) (mk_bien insee nom a pieces c)
      = Demo.mk_estimation (ajustements c)
                           (Some (m * ajustements c))
                           (Some (m * ajustements c * a))
                           (Some (m * ajustements c * a * 0.95))
                           (Some (m * ajustements c * a * 1.05))) /\
  (ajustements A_RENOVER = 0.85 /\ ajustements STANDARD = 1.0 /\
   ajustements HAUT_DE_GAMME = 1.20) /\
  (forall (df : DataFrame) (insee nom : string) (pieces : Z),
      lignes df <> [] ->
      (forall t, In t (lignes df) -> ratio t == 2000) ->
      exists p df' sortie v bas haut,
        Demo.analyser_marche df = (Retour (Some p, df'), sortie) /\
        p == 2000 /\
        Demo.estimer (Some p) (mk_bien insee nom 75.0 pieces STANDARD)
        = Demo.mk_estimation 1.0 (Some (p * 1.0)) (Some v)
                             (Some bas) (Some haut) /\
        v == 150000 /\ bas == 142500 /\ haut == 157500 /\
        tronque v = 150000%Z /\ tronque bas = 142500%Z /\
        tronque haut = 157500%Z).
Proof.
  split; [reflexivity|]. split; [repeat split; reflexivity|].
  intros df insee nom pieces Hne H2000.
  destruct (demo_analyser_forme df Hne)
    as (mn & mx & mo & md & _ & _ & Hmo & _ & E).
  assert (Hp : mo == 2000).
  { apply (mean_constante (valeur_sur_surface df)); [|exact Hmo].
    unfold valeur_sur_surface. intros y Hy.
    apply in_map_iff in Hy as (t & <- & Ht). now apply H2000. }
  exists mo. eexists _, _.
  exists (mo * 1.0 * 75.0), (mo * 1.0 * 75.0 * 0.95), (mo * 1.0 * 75.0 * 1.05).
  split; [exact E|]. split; [exact Hp|].
  split; [reflexivity|].
  assert (Hv : mo * 1.0 * 75.0 == 150000) by (rewrite Hp; reflexivity).
  assert (Hb : mo * 1.0 * 75.0 * 0.95 == 142500) by (rewrite Hp; reflexivity).
  assert (Hh : mo * 1.0 * 75.0 * 1.05 == 157500) by (rewrite Hp; reflexivity).
  repeat split; try assumption.
  - rewrite (tronque_comp _ _ Hv). apply (tronque_entier 150000).
  - rewrite (tronque_comp _ _ Hb). apply (tronque_entier 142500).
  - rewrite (tronque_comp _ _ Hh). apply (tronque_entier 157500).
Qed.

End Estimation.

Lemma C2_temoin :
  lignes df_a_2000 <> [] /\
  (forall t, In t (lignes df_a_2000) -> ratio t == 2000) /\
  exists p df' sortie,
    Demo.analyser_marche (np := numpy_exemple) df_a_2000
    = (Retour (Some p, df'), sortie) /\ p == 2000.
Proof.
  assert (H1 : lignes df_a_2000 <> []) by discriminate.
  assert (H2 : forall t, In t (lignes df_a_2000) -> ratio t == 2000).
  { intros t Ht. cbn [df_a_2000 lignes In] in Ht.
    destruct Ht as [<- | [<- | [<- | [<- | []]]]]; reflexivity. }
  split; [exact H1 | split; [exact H2|]].
  destruct (proj2 (proj2 (C2_estimation (np := numpy_exemple)))
              df_a_2000 "33114"%string "Cavignac"%string 3%Z H1 H2)
    as (p & df' & sortie & _ & _ & _ & E & Hp & _).
  exists p, df', sortie. split; assumption.
Defined.

(* ================================================================== *)
(** * Grouping by year *)

Lemma valeurs_de_app (k : Z) (l l' : list (Z * Q)) :
  valeurs_de k (l ++ l') = (valeurs_de k l ++ valeurs_de k l')%list.
Proof. unfold valeurs_de. now rewrite filter_app, map_app. Qed.

Lemma valeurs_de_absent (k : Z) (l : list (Z * Q)) :
  ~ In k (map fst l) -> valeurs_de k l = [].
Proof.
  unfold valeurs_de. induction l as [|[k' v] l IH]; simpl; intros H.
  - reflexivity.
  - destruct (Z.eqb_spec k' k) as [->|Hne].
    + exfalso. apply H. now left.
    + apply IH. intros Hin. apply H. now right.
Qed.

Lemma ajoute_cles (k : Z) (v : Q) (g : list (Z * list Q)) (k' : Z) :
  In k' (map fst (ajoute_au_groupe k v g)) <-> k' = k \/ In k' (map fst g).
Proof.
  induction g as [|[k0 vs] g IH]; simpl.
  - intuition.
  - destruct (Z.ltb_spec k k0).
    + simpl. intuition.
    + destruct (Z.eqb_spec k k0) as [->|Hne]; simpl.
      * intuition.
      * rewrite IH. intuition.
Qed.

Lemma ajoute_triee (k : Z) (v : Q) (g : list (Z * list Q)) :
  StronglySorted Z.lt (map fst g) ->
  StronglySorted Z.lt (map fst (ajoute_au_groupe k v g)).
Proof.
  induction g as [|[k0 vs] g IH]; simpl; intros Hs.
  - repeat constructor.
  - apply StronglySorted_inv in Hs as [Hs Hk0].
    destruct (Z.ltb_spec k k0).
    + simpl. constructor.
      * now constructor.
      * constructor; [assumption|].
        eapply Forall_impl; [|exact Hk0]. intros z Hz. simpl in Hz. lia.
    + destruct (Z.eqb_spec k k0) as [->|Hne]; simpl.
      * now constructor.
      * constructor; [now apply IH|].
        apply Forall_forall. intros z Hz. apply ajoute_cles in Hz.
        destruct Hz as [-> | Hz]; [lia|].
        rewrite Forall_forall in Hk0. now apply Hk0.
Qed.

Lemma ajoute_valeurs (k : Z) (v : Q) (g : list (Z * list Q))
  (k' : Z) (vs' : list Q) :
  StronglySorted Z.lt (map fst g) ->
  In (k', vs') (ajoute_au_groupe k v g) ->
  (k' = k /\ ~ In k (map fst g) /\ vs' = [v]) \/
  (k' = k /\ exists vs, In (k, vs) g /\ vs' = (vs ++ [v])%list) \/
  (k' <> k /\ In (k', vs') g).
Proof.
  induction g as [|[k0 vs] g IH]; simpl; intros Hs Hin.
  - destruct Hin as [[= <- <-] | []]. left. intuition.
  - apply StronglySorted_inv in Hs as [Hs Hk0].
    rewrite Forall_forall in Hk0.
    destruct (Z.ltb_spec k k0).
    + destruct Hin as [[= <- <-] | Hin].
      * left. repeat split; try reflexivity.
        intros [E | Hk]; [simpl in E; lia|].
        apply Hk0 in Hk. lia.
      * right. right. split; [|exact Hin].
        destruct Hin as [[= <- <-] | Hin]; [lia|].
        apply (in_map fst) in Hin. apply Hk0 in Hin. simpl in Hin. lia.
    + destruct (Z.eqb_spec k k0) as [->|Hne].
      * destruct Hin as [[= <- <-] | Hin].
        -- right. left. split; [reflexivity|]. exists vs. split; [now left | reflexivity].
        -- right. right. split; [|now right].
           apply (in_map fst) in Hin. apply Hk0 in Hin. simpl in Hin. lia.
      * destruct Hin as [[= <- <-] | Hin].
        -- right. right. split; [lia | now left].
        -- destruct (IH Hs Hin) as [(-> & Hn & ->) | [(-> & vs0 & Hv & ->) | (Hd & Hv)]].
           ++ left. repeat split; try reflexivity.
              intros [E | Hk]; [simpl in E; lia | contradiction].
           ++ right. left. split; [reflexivity|]. exists vs0. split; [now right | reflexivity].
           ++ right. right. split; [exact Hd | now right].
Qed.

Lemma groupes_corrects_ajoute (g : list (Z * list Q)) (vus : list (Z * Q))
  (k : Z) (v : Q) :
  groupes_corrects g vus ->
  groupes_corrects (ajoute_au_groupe k v g) (vus ++ [(k, v)]).
Proof.
  intros (Hs & Hk & Hv). split; [|split].
  - now apply ajoute_triee.
  - intros k'. rewrite ajoute_cles, map_app, in_app_iff, Hk. simpl. intuition.
  - intros k' vs' Hin. rewrite valeurs_de_app.
    destruct (ajoute_valeurs k v g k' vs' Hs Hin)
      as [(-> & Hn & ->) | [(-> & vs0 & Hv0 & ->) | (Hd & Hv0)]].
    + rewrite valeurs_de_absent by (now rewrite <- Hk).
      unfold valeurs_de. simpl. now rewrite Z.eqb_refl.
    + rewrite <- (Hv _ _ Hv0). unfold valeurs_de at 1. simpl.
      now rewrite Z.eqb_refl.
    + rewrite <- (Hv _ _ Hv0). unfold valeurs_de at 1. simpl.
      destruct (Z.eqb_spec k k'); [congruence|]. simpl.
      now rewrite app_nil_r.
Qed.

Lemma groupes_corrects_fold (paires vus : list (Z * Q))
  (g : list (Z * list Q)) :
  groupes_corrects g vus ->
  groupes_corrects
    (fold_left (fun g kv => ajoute_au_groupe (fst kv) (snd kv) g) paires g)
    (vus ++ paires).
Proof.
  revert vus g. induction paires as [|[k v] paires IH]; intros vus g H.
  - simpl. now rewrite app_nil_r.
  - simpl. replace (vus ++ (k, v) :: paires)%list
      with ((vus ++ [(k, v)]) ++ paires)%list
      by (now rewrite <- app_assoc).
    apply IH. now apply groupes_corrects_ajoute.
Qed.

Lemma groupby_correct (a : list Z) (s : list Q) :
  groupes_corrects (groupby a s) (combine a s).
Proof.
  unfold groupby. apply (groupes_corrects_fold (combine a s) [] []).
  split; [constructor | split]; simpl; [tauto | intros ? ? []].
Qed.

(** Sorting an index that is already in strict ascending order. *)
Lemma sort_index_triee (A : Type) (l : list (Z * A)) :
  StronglySorted Z.lt (map fst l) -> sort_index l = l.
Proof.
  induction l as [|e l IH]; simpl; intros Hs; [reflexivity|].
  apply StronglySorted_inv in Hs as [Hs He].
  unfold sort_index in *. simpl. rewrite (IH Hs).
  destruct l as [|f l]; [reflexivity|]. simpl.
  apply Forall_inv in He. simpl in He.
  destruct (Z.leb_spec (fst e) (fst f)); [reflexivity | lia].
Qed.

Lemma triee_sans_doublon (l : list Z) : StronglySorted Z.lt l -> NoDup l.
Proof.
  induction 1 as [|x l Hs IH Hx]; constructor; [|exact IH].
  intros Hin. rewrite Forall_forall in Hx. apply Hx in Hin. lia.
Qed.

Lemma moyenne_par_annee_groupes (a : list Z) (s : list Q) :
  moyenne_par_annee a s
  = map (fun g => (fst g, mean (snd g))) (groupby a s) /\
  map fst (moyenne_par_annee a s) = map fst (groupby a s).
Proof.
  destruct (groupby_correct a s) as (Hs & _ & _).
  assert (E : map fst (map (fun g : Z * list Q => (fst g, mean (snd g)))
                           (groupby a s)) = map fst (groupby a s))
    by (rewrite map_map; reflexivity).
  unfold moyenne_par_annee. rewrite sort_index_triee.
  - split; [reflexivity | exact E].
  - rewrite map_map. exact Hs.
Qed.

Lemma combine_cles (a : list Z) (s : list Q) :
  List.length a = List.length s -> map fst (combine a s) = a.
Proof.
  revert s. induction a as [|x a IH]; intros [|y s]; simpl;
    try reflexivity; try discriminate.
  intros [= H]. now rewrite IH.
Qed.

(** The yearly means of two columns of equal length. *)
Lemma moyenne_par_annee_correcte (a : list Z) (s : list Q) :
  List.length a = List.length s ->
  StronglySorted Z.lt (map fst (moyenne_par_annee a s)) /\
  (forall y, In y (map fst (moyenne_par_annee a s)) <-> In y a) /\
  List.length (moyenne_par_annee a s) = List.length (annees_distinctes a) /\
  (forall y m, In (y, m) (moyenne_par_annee a s) ->
               m = mean (prix_de_l_annee y a s)).
Proof.
  intros Hlen.
  destruct (groupby_correct a s) as (Hs & Hk & Hv).
  destruct (moyenne_par_annee_groupes a s) as [E Ek].
  rewrite (combine_cles a s Hlen) in Hk.
  split; [now rewrite Ek|]. split; [intros y; now rewrite Ek|]. split.
  - rewrite <- (length_map fst), Ek.
    apply Permutation_length, NoDup_Permutation.
    + now apply triee_sans_doublon.
    + apply NoDup_nodup.
    + intros y. unfold annees_distinctes. now rewrite nodup_In.
  - intros y m Hin. rewrite E in Hin.
    apply in_map_iff in Hin as ([k vs] & [= <- <-] & Hin).
    simpl. unfold prix_de_l_annee. now rewrite (Hv _ _ Hin).
Qed.

Lemma longueur_colonnes (df : DataFrame) :
  List.length (dt_year df) = List.length (valeur_sur_surface df).
Proof. unfold dt_year, valeur_sur_surface. now rewrite !length_map. Qed.

Lemma longueur_colonnes_elaguees (df : DataFrame) :
  List.length (annees_elaguees df)
  = List.length (serie_elaguee (valeur_sur_surface df)).
Proof.
  unfold annees_elaguees, serie_elaguee. cbv zeta.
  rewrite <- (selection_filter Q).
  apply selection_longueur, longueur_colonnes.
Qed.

Lemma selection_incluse (A : Type) (mask : list bool) (l : list A) (x : A) :
  In x (selection mask l) -> In x l.
Proof.
  revert l. induction mask as [|b mask IH]; intros [|y l]; simpl;
    try tauto.
  destruct b; simpl; intros H.
  - destruct H as [-> | H]; [now left | right; now apply IH].
  - right. now apply IH.
Qed.

Lemma annees_elaguees_moins_nombreuses (df : DataFrame) :
  (List.length (annees_distinctes (annees_elaguees df))
   <= List.length (annees_distinctes (dt_year df)))%nat.
Proof.
  unfold annees_distinctes. apply NoDup_incl_length; [apply NoDup_nodup|].
  intros y Hy. apply nodup_In in Hy. apply nodup_In.
  unfold annees_elaguees in Hy. now apply selection_incluse in Hy.
Qed.


Section Evolution.
Context {np : Numpy}.


End Evolution.



(* ================================================================== *)
(** * Trend line *)

Lemma figure_dvf_tendance {np : Numpy} (ev : list (Z * pyfloat)) :
  existsb est_tendance (figure_dvf ev) = (1 <? List.length ev)%nat.
Proof.
  unfold figure_dvf. cbn [app existsb est_tendance].
  destruct (1 <? List.length ev)%nat; reflexivity.
Qed.

Section Tendance.
Context {np : Numpy}.

(** The DVF dashboard draws the trend line exactly when the yearly means
    of the kept records have more than one entry; never, then, for an
    input of fewer than two distinct years. *)
Lemma dvf_tendance_gardee (df : DataFrame) p fig st df' t :
  lignes df <> [] ->
  Dvf.analyser_marche df = (Retour (p, fig, st, df'), t) ->
  exists f,
    fig = Some f /\
    existsb est_tendance f
    = (1 <? List.length (annees_distinctes (annees_elaguees df)))%nat /\
    ((List.length (annees_distinctes (dt_year df)) < 2)%nat ->
     existsb est_tendance f = false).
Proof.
  intros Hne H.
  destruct (dvf_analyser_retour df _ _ _ _ _ Hne H)
    as (st0 & _ & _ & _ & -> & _).
  destruct (moyenne_par_annee_correcte _ _ (longueur_colonnes_elaguees df))
    as (_ & _ & H3 & _).
  eexists. split; [reflexivity|]. rewrite figure_dvf_tendance, H3.
  split; [reflexivity|]. intros Hlt.
  pose proof (annees_elaguees_moins_nombreuses df).
  apply Nat.ltb_ge. lia.
Qed.

End Tendance.





(* ================================================================== *)
(** * Fetching the transactions *)

Lemma ligne_complete_positive (l : Dvf.ligne_convertie) (t : transaction) :
  In t (Dvf.ligne_complete l) -> 0 < surface_reelle_bati t.
Proof.
  destruct l as [[[d|] [v|]] [s|]]; simpl; try tauto.
  destruct (Qlt_le_dec 0 s) as [Hs|Hs]; simpl; [|tauto].
  intros [<- | []]. exact Hs.
Qed.

Lemma bind_retour (A B : Type) (m : resultat A) (f : A -> resultat B) (b : B) :
  bind m f = Retour b -> exists a, m = Retour a /\ f a = Retour b.
Proof. destruct m as [a|e]; simpl; [eauto | discriminate]. Qed.

Section Recuperation.
Context {np : Numpy} {net : Reseau}.

(** Whatever the [try] block returns is a usable frame without a message,
    or the empty frame with a message. *)
Lemma recuperer_corps_retour (url : string) (df : DataFrame)
  (erreur : option string) :
  Dvf.recuperer_corps url = Retour (df, erreur) ->
  (erreur = None /\ lignes df <> [] /\ aires_positives df) \/
  (df = df_vide /\ exists raison, erreur = Some raison).
Proof.
  unfold Dvf.recuperer_corps. intros H.
  apply bind_retour in H as (response & _ & H).
  destruct (status_code response =? 200)%Z.
  - apply bind_retour in H as (t & _ & H).
    apply bind_retour in H as (_ & _ & H).
    apply bind_retour in H as (_ & _ & H).
    destruct (filter _ (filter _ (lignes_brutes t))) as [|l0 ls].
    + injection H as <- <-. right. eauto.
    + apply bind_retour in H as (_ & _ & H).
      apply bind_retour in H as (_ & _ & H).
      apply bind_retour in H as (_ & _ & H).
      apply bind_retour in H as (dates & _ & H).
      destruct (flat_map Dvf.ligne_complete _) as [|x r] eqn:E.
      * injection H as <- <-. right. eauto.
      * injection H as <- <-. left. split; [reflexivity|].
        split; [discriminate|].
        unfold aires_positives. cbn [lignes]. rewrite <- E.
        apply Forall_forall. intros tr Htr.
        apply in_flat_map in Htr as (l & _ & Htr).
        now apply (ligne_complete_positive l).
  - injection H as <- <-. right. eauto.
Qed.

(** C8.  A fetch never raises: it returns a non-empty frame of records with
    positive areas and no message, or the empty frame with a reason.  A
    connection that raises, and any exception inside the [try] block,
    gives "Erreur de connexion : " followed by the text of the exception;
    a status other than 200 gives "API non
    disponible (code N)", so "API non disponible (code 404)" for 404; a
    file without a sale of a house or flat gives "Aucune transaction
    trouvée pour cette commune".  The page then shows the reason as an
    error, gives its suggestions and stops: no statistic and no value is
    shown. *)
Theorem C8_source_indisponible :
  (forall code e,
      requests_get (Dvf.url_dvf code) = Leve e ->
      Dvf.recuperer_transactions_dvf code
      = (df_vide, Some ("Erreur de connexion : " ++ str_exn e)%string)) /\
  (forall code e,
      Dvf.recuperer_corps (Dvf.url_dvf code) = Leve e ->
      Dvf.recuperer_transactions_dvf code
      = (df_vide, Some ("Erreur de connexion : " ++ str_exn e)%string)) /\
  (forall code r,
      requests_get (Dvf.url_dvf code) = Retour r ->
      status_code r <> 200%Z ->
      Dvf.recuperer_transactions_dvf code
      = (df_vide, Some ("API non disponible (code "
                        ++ str_int (status_code r) ++ ")")%string)) /\
  (forall code r,
      requests_get (Dvf.url_dvf code) = Retour r ->
      status_code r = 404%Z ->
      Dvf.recuperer_transactions_dvf code
      = (df_vide, Some "API non disponible (code 404)"%string)) /\
  (forall code r t,
      requests_get (Dvf.url_dvf code) = Retour r ->
      status_code r = 200%Z ->
      read_csv (text r) = Retour t ->
      colonne_presente t "nature_mutation" = Retour tt ->
      colonne_presente t "type_local" = Retour tt ->
      filter (fun l => String.eqb (type_local l) "Maison"
                       || String.eqb (type_local l) "Appartement")
             (filter (fun l => String.eqb (nature_mutation l) "Vente")
                     (lignes_brutes t)) = [] ->
      Dvf.recuperer_transactions_dvf code
      = (df_vide,
         Some "Aucune transaction trouvée pour cette commune"%string)) /\
  (forall code,
      (exists df, Dvf.recuperer_transactions_dvf code = (df, None) /\
                  lignes df <> [] /\ aires_positives df) \/
      (exists raison,
          Dvf.recuperer_transactions_dvf code = (df_vide, Some raison))) /\
  (forall ui raison,
      estimer_button ui = true ->
      Dvf.recuperer_transactions_dvf (input_insee ui)
      = (df_vide, Some raison) ->
      Dvf.main ui
      = (Retour tt, [StError ("❌ " ++ raison); StInfo Dvf.suggestions])).
Proof.
  split; [|split; [|split; [|split; [|split; [|split]]]]].
  - intros code e H. unfold Dvf.recuperer_transactions_dvf, Dvf.recuperer_corps.
    cbv zeta. rewrite H. reflexivity.
  - intros code e H. unfold Dvf.recuperer_transactions_dvf.
    cbv zeta. rewrite H. reflexivity.
  - intros code r H Hs. unfold Dvf.recuperer_transactions_dvf, Dvf.recuperer_corps.
    cbv zeta. rewrite H. cbn [bind].
    destruct (Z.eqb_spec (status_code r) 200); [contradiction | reflexivity].
  - intros code r H Hs. unfold Dvf.recuperer_transactions_dvf, Dvf.recuperer_corps.
    cbv zeta. rewrite H. cbn [bind]. rewrite Hs. reflexivity.
  - intros code r t H Hs Ht Hc1 Hc2 Hf.
    unfold Dvf.recuperer_transactions_dvf, Dvf.recuperer_corps.
    cbv zeta. rewrite H. cbn [bind]. rewrite Hs. cbn [Z.eqb Pos.eqb].
    rewrite Ht. cbn [bind]. rewrite Hc1. cbn [bind]. rewrite Hc2. cbn [bind].
    rewrite Hf. reflexivity.
  - intros code. unfold Dvf.recuperer_transactions_dvf. cbv zeta.
    destruct (Dvf.recuperer_corps (Dvf.url_dvf code)) as [[df erreur]|e] eqn:E.
    + destruct (recuperer_corps_retour _ _ _ E)
        as [(-> & H1 & H2) | (-> & raison & ->)].
      * left. exists df. repeat split; assumption.
      * right. exists raison. reflexivity.
    + right. eexists. reflexivity.
  - intros ui raison Hb H. unfold Dvf.main. rewrite Hb.
    cbn [code_insee]. rewrite H. reflexivity.
Qed.

End Recuperation.

Lemma C8_temoin :
  requests_get (Reseau := serveur 404 (Leve (AutreException "")))
               (Dvf.url_dvf "33063")
  = Retour (mk_reponse 404 "") /\
  Dvf.main (np := numpy_exemple)
           (net := serveur 404 (Leve (AutreException "")))
           (mk_saisie "Bordeaux" "33063" 75.0 3 STANDARD true)
  = (Retour tt, [StError "❌ API non disponible (code 404)";
                 StInfo Dvf.suggestions]).
Proof.
  pose (net := serveur 404 (Leve (AutreException ""))).
  assert (H1 : requests_get (Reseau := net) (Dvf.url_dvf "33063")
               = Retour (mk_reponse 404 "")) by reflexivity.
  split; [exact H1|].
  destruct (C8_source_indisponible (np := numpy_exemple) (net := net))
    as (_ & _ & _ & H404 & _ & _ & Hmain).
  apply (Hmain (mk_saisie "Bordeaux" "33063" 75.0 3 STANDARD true)
               "API non disponible (code 404)"%string eq_refl).
  exact (H404 "33063"%string (mk_reponse 404 "") H1 eq_refl).
Defined.

(* ================================================================== *)
(** * Demonstration data *)

Lemma tirages_longueur (G A : Type) (n : nat) (tire : G -> A * G) (g : G) :
  List.length (fst (tirages n tire g)) = n.
Proof.
  revert g. induction n as [|n IH]; intros g; simpl; [reflexivity|].
  destruct (tire g) as [a g1]. specialize (IH g1).
  destruct (tirages n tire g1) as [l g2]. simpl in *. now rewrite IH.
Qed.

Section Donnees.
Context {np : Numpy}.

(** The table of the demonstration, written without the generator state
    the function is called in. *)
Lemma generer_donnees_demo_forme (code : string) (g : generateur) :
  exists df gf,
    len df = 150%nat /\
    DemoStreamlit.generer_donnees_demo code g = (df, gf) /\
    DemoStreamlit.generer_donnees_demo "" (seed 0) = (df, gf) /\
    Demo.generer_donnees_demo code g
    = ((Retour df,
        [PyPrint ("🔄 Génération de données de démonstration pour "
                  ++ code ++ "...");
         PyPrint ("✅ " ++ str_int (Z.of_nat (len df))
                  ++ " transactions générées (données de démonstration)")]),
       gf).
Proof.
  unfold Demo.generer_donnees_demo, DemoStreamlit.generer_donnees_demo.
  cbv zeta.
  pose proof (tirages_longueur _ _ 150 (randint 0 1825) (seed 42)) as L1.
  destruct (tirages 150 (randint 0 1825) (seed 42)) as [jours g1].
  pose proof (tirages_longueur _ _ 150 (normal 0 200) g1) as L2.
  destruct (tirages 150 (normal 0 200) g1) as [bruit g2].
  pose proof (tirages_longueur _ _ 150 (uniform 30 150) g2) as L3.
  destruct (tirages 150 (uniform 30 150) g2) as [surfaces g3].
  cbn [fst] in L1, L2, L3.
  eexists _, _. split; [|split; [reflexivity | split; reflexivity]].
  unfold len. cbn [lignes].
  repeat (rewrite length_map || rewrite length_combine).
  rewrite L1, L2, L3. reflexivity.
Qed.

(** C10.  The demonstration table does not depend on the municipality
    code, nor on the state of the generator at the call: any two calls
    return the same table of 150 rows and leave the generator in the same
    state.  This holds for the console demo, whose prints alone mention
    the code, and for the dashboard demo. *)
Theorem C10_donnees_demo_independantes :
  forall (c1 c2 : string) (g1 g2 : generateur),
  exists df gf,
    len df = 150%nat /\
    fst (fst (Demo.generer_donnees_demo c1 g1)) = Retour df /\
    fst (fst (Demo.generer_donnees_demo c2 g2)) = Retour df /\
    snd (Demo.generer_donnees_demo c1 g1) = gf /\
    snd (Demo.generer_donnees_demo c2 g2) = gf /\
    DemoStreamlit.generer_donnees_demo c1 g1 = (df, gf) /\
    DemoStreamlit.generer_donnees_demo c2 g2 = (df, gf).
Proof.
  intros c1 c2 g1 g2.
  destruct (generer_donnees_demo_forme c1 g1)
    as (df & gf & Hl & Hs1 & H0 & Hd1).
  destruct (generer_donnees_demo_forme c2 g2)
    as (df' & gf' & _ & Hs2 & H0' & Hd2).
  rewrite H0 in H0'. injection H0' as <- <-.
  exists df, gf. rewrite Hd1, Hd2. repeat split; assumption.
Qed.

End Donnees.

(* ================================================================== *)
(** * The console demonstration as a whole *)

Lemma len_non_vide (df : DataFrame) : (0 < len df)%nat -> lignes df <> [].
Proof. unfold len. destruct (lignes df); simpl; [lia | discriminate]. Qed.

Section DemoEntiere.
Context {np : Numpy}.

(** The valuation of a price that is a number prints its six lines. *)
Lemma affiche_resultat_retourne (p : Q) (b : BienImmobilier) :
  exists t,
    Demo.affiche_resultat (Some p) b (Demo.estimer (Some p) b)
    = (Retour tt, t) /\ List.length t = 6%nat /\
    In (PyPrint (nl ++ "🏠 VALEUR ESTIMÉE        : "
                 ++ format_milliers
                      (tronque (p * ajustements (standing b)
                                * surface_habitable b))
                 ++ " €")) t /\
    ~ In (PyPrint (nl ++ "❌ Pas de données disponibles.")) t.
Proof.
  eexists. split; [reflexivity|]. split; [reflexivity|]. split.
  - cbn [In]. do 3 right. left. reflexivity.
  - cbn [In]. intros H.
    repeat (destruct H as [H | H];
            [cbn [String.append nl ascii_of_nat ascii_of_pos] in H;
             discriminate H|]).
    destruct H.
Qed.

(** Whatever numpy draws, [main] of the console demo runs to its end: the
    table it generates is never empty, the analysis and the six prints of
    the result never raise, the chart is saved, and the message for
    missing data is never printed. *)
Theorem demo_main_aboutit (g : generateur) :
  exists t,
    Demo.main g = (Retour tt, t) /\
    List.length t = 19%nat /\
    In (Savefig "evolution_prix_m2.png") t /\
    ~ In (PyPrint (nl ++ "❌ Pas de données disponibles.")) t /\
    exists p, In (PyPrint (nl ++ "🏠 VALEUR ESTIMÉE        : "
                           ++ format_milliers (tronque (p * 1.0 * 75.0))
                           ++ " €")) t.
Proof.
  unfold Demo.main. cbv zeta. cbn [code_insee].
  destruct (generer_donnees_demo_forme "33114" g)
    as (df & gf & Hl & _ & _ & ->).
  assert (Hne : lignes df <> []) by (apply len_non_vide; lia).
  cbn [fst lie]. rewrite (empty_faux df Hne).
  destruct (demo_analyser_forme df Hne)
    as (mn & mx & mo & md & _ & _ & _ & _ & ->).
  cbn [lie fst].
  destruct (affiche_resultat_retourne mo (mk_bien "33114" "Cavignac" 75.0 3 STANDARD))
    as (t & -> & Ht & Hin & Hnot).
  eexists. split; [reflexivity|].
  split; [rewrite !length_app, Ht; reflexivity|].
  split; [rewrite in_app_iff; right; rewrite in_app_iff; left;
          unfold sortie_demo; cbn [In]; tauto|].
  split.
  - rewrite !in_app_iff. intros [H | [H | H]].
    + cbn [In] in H.
      repeat (destruct H as [H | H];
              [cbn [String.append nl ascii_of_nat ascii_of_pos] in H;
               discriminate H|]).
      destruct H.
    + unfold sortie_demo in H. cbn [In] in H.
      repeat (destruct H as [H | H];
              [try discriminate H;
               cbn [String.append nl ascii_of_nat ascii_of_pos] in H;
               discriminate H|]).
      destruct H.
    + now apply Hnot.
  - exists mo. rewrite !in_app_iff. right. right. exact Hin.
Qed.

End DemoEntiere.

(* ================================================================== *)
(** * The demonstration dashboard *)

Section PageDemo.
Context {np : Numpy}.

Lemma page_analyser_forme (df : DataFrame) :
  lignes df <> [] ->
  let s := valeur_sur_surface df in
  let ev := moyenne_par_annee (dt_year df) s in
  exists mn mx mo md,
    serie_min s = Some mn /\ serie_max s = Some mx /\
    mean s = Some mo /\ median s = Some md /\
    DemoPage.analyser_marche df =
      (Retour
         (Triplet (Some mo)
            [Plot (map fst ev) (map snd ev);
             Title ("Évolution du prix au m² - "
                    ++ str_annee (annee_min (dt_year df))
                    ++ " à " ++ str_annee (annee_max (dt_year df)));
             PlotTendance (map fst ev)
               (poly1d (polyfit (map fst ev) (map snd ev)) (map fst ev))
               ("Tendance: +"
                ++ str_int (tronque (fst (polyfit (map fst ev) (map snd ev))))
                ++ "€/an")]
            (mk_stats_demo (tronque mn) (tronque mx) (tronque mo)
                           (tronque md)),
          mk_df (lignes df) (Some s) (Some (dt_year df))),
       []).
Proof.
  intros Hne s ev.
  pose proof (valeur_sur_surface_non_vide df Hne) as Hs.
  destruct (serie_min_defini s Hs) as [mn Hmn].
  destruct (serie_max_defini s Hs) as [mx Hmx].
  destruct (mean_defini s Hs) as [mo Hmo].
  destruct (median_defini s Hs) as [md Hmd].
  exists mn, mx, mo, md. repeat (split; [assumption|]).
  unfold DemoPage.analyser_marche. rewrite (empty_faux df Hne).
  cbn [col_prix_m2 affecte_prix_m2 affecte_annee prix_m2 annee de_resultat
       lie evolution_par_annee col_annee bind].
  fold s. rewrite Hmn, Hmx, Hmo, Hmd.
  reflexivity.
Qed.

(** On every non-empty frame the two demonstration scripts agree: the
    dashboard returns the price the console script returns, mutates the
    frame in the same way, shows as statistics the four integers the
    console prints, and draws the three elements the console draws.  The
    dashboard neither prints nor saves. *)
Theorem page_et_console_concordent (df : DataFrame) :
  lignes df <> [] ->
  exists mn mx mo md fig df',
    Demo.analyser_marche df
    = (Retour (Some mo, df'),
       sortie_demo mn mx mo md (dt_year df)
         (moyenne_par_annee (dt_year df) (valeur_sur_surface df))) /\
    DemoPage.analyser_marche df
    = (Retour (Triplet (Some mo) fig
                 (mk_stats_demo (tronque mn) (tronque mx) (tronque mo)
                                (tronque md)),
               df'), []) /\
    List.length fig = 3%nat /\
    (forall d, In d fig ->
               In (Plt d)
                  (sortie_demo mn mx mo md (dt_year df)
                     (moyenne_par_annee (dt_year df)
                                        (valeur_sur_surface df)))).
Proof.
  intros Hne.
  destruct (demo_analyser_forme df Hne)
    as (mn & mx & mo & md & Hmn & Hmx & Hmo & Hmd & E).
  destruct (page_analyser_forme df Hne)
    as (mn' & mx' & mo' & md' & Hmn' & Hmx' & Hmo' & Hmd' & E').
  rewrite Hmn in Hmn'. rewrite Hmx in Hmx'. rewrite Hmo in Hmo'.
  rewrite Hmd in Hmd'.
  injection Hmn' as <-. injection Hmx' as <-. injection Hmo' as <-.
  injection Hmd' as <-.
  eexists mn, mx, mo, md, _, _. split; [exact E|]. split; [exact E'|].
  split; [reflexivity|].
  intros d Hd. unfold sortie_demo. cbn [In] in *.
  destruct Hd as [<- | [<- | [<- | []]]]; tauto.
Qed.

(** On the empty frame the dashboard's analyser returns the pair
    [(0.0, None)], which the three names of [main] cannot receive; the
    page is safe all the same: whatever the inputs and whatever numpy
    draws, [main] runs to its end, and a pressed button always gives the
    ten widgets of a result, with the value and the band computed from the
    mean price of the generated table, never the message for missing
    data. *)
Theorem page_main_aboutit (ui : saisie) (g : generateur) :
  (forall df, empty df = true ->
     exists r, DemoPage.analyser_marche df = (Retour (r, df), []) /\
               depaquette r
               = Leve (ValueError
                         "not enough values to unpack (expected 3, got 2)")) /\
  exists t,
    DemoPage.main ui g = (Retour tt, t) /\
    (estimer_button ui = false -> List.length t = 1%nat) /\
    (estimer_button ui = true ->
     List.length t = 10%nat /\
     ~ In (StError "❌ Pas de données disponibles pour cette commune.") t /\
     exists p : Q,
       mean (valeur_sur_surface
               (fst (DemoStreamlit.generer_donnees_demo (input_insee ui) g)))
       = Some p /\
       incl (resultats_affiches
               (tronque (p * ajustements (input_standing ui)
                         * input_surface ui * 0.95))
               (tronque (p * ajustements (input_standing ui)
                         * input_surface ui))
               (tronque (p * ajustements (input_standing ui)
                         * input_surface ui * 1.05)))
            t).
Proof.
  split.
  - intros df H. unfold DemoPage.analyser_marche. rewrite H.
    eexists. split; reflexivity.
  - unfold DemoPage.main. destruct (estimer_button ui).
    + cbv zeta. cbn [code_insee].
      destruct (generer_donnees_demo_forme (input_insee ui) g)
        as (df & gf & Hl & -> & _ & _).
      assert (Hne : lignes df <> []) by (apply len_non_vide; lia).
      cbn [fst]. rewrite (empty_faux df Hne).
      destruct (page_analyser_forme df Hne)
        as (mn & mx & mo & md & _ & _ & Hmo & _ & ->).
      eexists. split; [reflexivity|]. split; [discriminate|].
      intros _. split; [reflexivity|]. split.
      * cbn [In app]. intros H.
        repeat (destruct H as [H | H]; [discriminate H|]). destruct H.
      * exists mo. split; [exact Hmo|].
        intros e He. unfold resultats_affiches in He. cbn [In] in He.
        cbn [In app]. destruct He as [<- | [<- | [<- | []]]]; tauto.
    + eexists. split; [reflexivity|]. split; [reflexivity | discriminate].
Qed.

End PageDemo.

Lemma page_et_console_temoin :
  lignes df_trois_ans <> [] /\
  exists mo fig st df',
    DemoPage.analyser_marche (np := numpy_exemple) df_trois_ans
    = (Retour (Triplet (Some mo) fig st, df'), []) /\
    fst (Demo.analyser_marche (np := numpy_exemple) df_trois_ans)
    = Retour (Some mo, df').
Proof.
  assert (H : lignes df_trois_ans <> []) by discriminate.
  split; [exact H|].
  destruct (page_et_console_concordent (np := numpy_exemple) df_trois_ans H)
    as (mn & mx & mo & md & fig & df' & E & E' & _).
  exists mo, fig. eexists _, df'. split; [exact E'|]. now rewrite E.
Defined.

(* ================================================================== *)
(** * The generated table *)

Lemma tirages_tous (G A : Type) (P : A -> Prop) (n : nat)
  (tire : G -> A * G) (g : G) :
  (forall g', P (fst (tire g'))) -> Forall P (fst (tirages n tire g)).
Proof.
  intros H. revert g. induction n as [|n IH]; intros g; simpl.
  - constructor.
  - pose proof (H g) as Hg. destruct (tire g) as [a g1].
    specialize (IH g1). destruct (tirages n tire g1) as [l g2].
    simpl in *. now constructor.
Qed.

(** Rows built from three columns of one length give the columns back. *)
Lemma lignes_de_colonnes (ds : list datetime) (vs ss : list Q) :
  List.length ds = List.length vs -> List.length vs = List.length ss ->
  let rows := map (fun p => mk_transaction (fst (fst p)) (snd (fst p)) (snd p))
                  (combine (combine ds vs) ss) in
  map date_mutation rows = ds /\
  map valeur_fonciere rows = vs /\
  map surface_reelle_bati rows = ss.
Proof.
  revert vs ss. induction ds as [|d ds IH]; intros [|v vs] [|x ss];
    simpl; try discriminate; intros H1 H2.
  - repeat split.
  - injection H1 as H1. injection H2 as H2.
    destruct (IH vs ss H1 H2) as (E1 & E2 & E3).
    simpl. now rewrite E1, E2, E3.
Qed.

Lemma annee_dans_la_periode (k : Z) :
  (0 <= k < 1825)%Z ->
  (2019 <= year (plus_jours (mk_datetime 2019 1 1) k) <= 2023)%Z.
Proof.
  intros Hk.
  assert (H : forallb (fun n => let y := year (plus_jours (mk_datetime 2019 1 1)
                                                          (Z.of_nat n)) in
                                ((2019 <=? y) && (y <=? 2023))%Z)
                      (seq 0 1825) = true) by (vm_compute; reflexivity).
  rewrite forallb_forall in H.
  specialize (H (Z.to_nat k)). rewrite Z2Nat.id in H by lia.
  cbv zeta in H. apply andb_true_iff in H; [|apply in_seq; lia].
  destruct H as [H1 H2]. apply Z.leb_le in H1, H2. lia.
Qed.

Section TableGeneree.
Context {np : Numpy}.

(** The rows of the generated table, column by column. *)
Lemma table_generee_colonnes (code : string) (g : generateur) :
  exists jours bruit surfaces,
    tirages_demo = (jours, bruit, surfaces) /\
    List.length jours = 150%nat /\ List.length bruit = 150%nat /\
    List.length surfaces = 150%nat /\
    let df := fst (DemoStreamlit.generer_donnees_demo code g) in
    map date_mutation (lignes df)
    = map (plus_jours (mk_datetime 2019 1 1)) jours /\
    map surface_reelle_bati (lignes df) = surfaces /\
    map valeur_fonciere (lignes df)
    = map (fun p => fst p * snd p) (combine prix_tires surfaces).
Proof.
  unfold DemoStreamlit.generer_donnees_demo, prix_tires, tirages_demo.
  cbv zeta.
  pose proof (tirages_longueur _ _ 150 (randint 0 1825) (seed 42)) as L1.
  destruct (tirages 150 (randint 0 1825) (seed 42)) as [jours g1].
  pose proof (tirages_longueur _ _ 150 (normal 0 200) g1) as L2.
  destruct (tirages 150 (normal 0 200) g1) as [bruit g2].
  pose proof (tirages_longueur _ _ 150 (uniform 30 150) g2) as L3.
  destruct (tirages 150 (uniform 30 150) g2) as [surfaces g3].
  cbn [fst] in L1, L2, L3.
  exists jours, bruit, surfaces.
  split; [reflexivity|].
  split; [exact L1|]. split; [exact L2|]. split; [exact L3|].
  cbn [fst lignes].
  set (dates := map (fun k => plus_jours (mk_datetime 2019 1 1) k) jours).
  set (prix := map (fun p : Q * Q => fst p + snd p)
                   (combine (map (fun d => inject_Z (2000 + (year d - 2019) * 100))
                                 dates) bruit)).
  assert (Eprix : prix
                  = map (fun p : Z * Q =>
                           inject_Z (2000 + (year (plus_jours (mk_datetime 2019 1 1)
                                                              (fst p)) - 2019) * 100)
                           + snd p)
                        (combine jours bruit)).
  { unfold prix, dates. clear. revert bruit.
    induction jours as [|k jours IH]; intros [|b bruit];
      cbn [map combine fst snd]; try reflexivity.
    now rewrite IH. }
  rewrite <- Eprix.
  assert (Lp : List.length prix = 150%nat).
  { unfold prix, dates.
    repeat (rewrite length_map || rewrite length_combine).
    rewrite L1, L2. reflexivity. }
  destruct (lignes_de_colonnes dates
              (map (fun p : Q * Q => fst p * snd p) (combine prix surfaces))
              surfaces) as (E1 & E2 & E3).
  - unfold dates.
    repeat (rewrite length_map || rewrite length_combine).
    rewrite L1, Lp, L3. reflexivity.
  - repeat (rewrite length_map || rewrite length_combine).
    rewrite Lp, L3. reflexivity.
  - repeat split; assumption.
Qed.

(** Given that numpy's [randint] stays within its bounds, every generated
    transaction is dated from 2019 to 2023: the year 2024 that the comment
    of the script announces is never reached, the base price never
    exceeds 2400, and the yearly means have at most five entries. *)
Theorem table_generee_periode (code : string) (g : generateur) :
  randint_borne ->
  let df := fst (DemoStreamlit.generer_donnees_demo code g) in
  (forall t, In t (lignes df) ->
             (2019 <= year (date_mutation t) <= 2023)%Z /\
             inject_Z (2000 + (year (date_mutation t) - 2019) * 100)
             <= 2400) /\
  (List.length (moyenne_par_annee (dt_year df) (valeur_sur_surface df))
   <= 5)%nat.
Proof.
  intros Hr df.
  destruct (table_generee_colonnes code g)
    as (jours & bruit & surfaces & Et & _ & _ & _ & Ed & _ & _).
  fold df in Ed.
  assert (Hj : Forall (fun k => (0 <= k < 1825)%Z) jours).
  { pose proof (tirages_tous _ _ (fun k => (0 <= k < 1825)%Z) 150
                  (randint 0 1825) (seed 42) Hr) as H.
    unfold tirages_demo in Et.
    destruct (tirages 150 (randint 0 1825) (seed 42)) as [j g1].
    destruct (tirages 150 (normal 0 200) g1) as [b g2].
    destruct (tirages 150 (uniform 30 150) g2) as [s g3].
    injection Et as <- _ _. exact H. }
  assert (Hy : forall t, In t (lignes df) ->
                         (2019 <= year (date_mutation t) <= 2023)%Z).
  { intros t Ht. apply (in_map date_mutation) in Ht. rewrite Ed in Ht.
    apply in_map_iff in Ht as (k & <- & Hk).
    rewrite Forall_forall in Hj. apply annee_dans_la_periode. now apply Hj. }
  split.
  - intros t Ht. split; [now apply Hy|].
    change 2400 with (inject_Z 2400). rewrite <- Zle_Qle.
    specialize (Hy t Ht). lia.
  - destruct (moyenne_par_annee_correcte _ _ (longueur_colonnes df))
      as (_ & _ & -> & _).
    unfold annees_distinctes.
    apply (NoDup_incl_length (l' := [2019; 2020; 2021; 2022; 2023]%Z));
      [apply NoDup_nodup|].
    intros y Hin. apply nodup_In in Hin. unfold dt_year in Hin.
    apply in_map_iff in Hin as (t & <- & Ht). specialize (Hy t Ht).
    cbn [In]. lia.
Qed.

End TableGeneree.

Lemma table_generee_periode_temoin :
  randint_borne (np := numpy_exemple) /\
  (List.length
     (moyenne_par_annee
        (dt_year (fst (DemoStreamlit.generer_donnees_demo
                         (np := numpy_exemple) "33114" 0%Z)))
        (valeur_sur_surface (fst (DemoStreamlit.generer_donnees_demo
                                    (np := numpy_exemple) "33114" 0%Z))))
   <= 5)%nat.
Proof.
  assert (H : randint_borne (np := numpy_exemple)).
  { intros g. cbn [randint numpy_exemple fst].
    pose proof (Z.mod_pos_bound (suivant g) (1825 - 0)). lia. }
  split; [exact H|].
  exact (proj2 (table_generee_periode (np := numpy_exemple) "33114" 0%Z H)).
Defined.

Section AiresGenerees.
Context {np : Numpy}.

(** Given that numpy's [uniform] stays within its bounds, every generated
    transaction has an area between 30 and 150, so a positive one: the
    analysis never divides by zero on the generated table.  The value of
    each transaction is the product of the price drawn for it and of its
    own area. *)
Theorem table_generee_aires (code : string) (g : generateur) :
  uniform_borne ->
  let df := fst (DemoStreamlit.generer_donnees_demo code g) in
  aires_positives df /\
  (forall t, In t (lignes df) -> 30 <= surface_reelle_bati t <= 150) /\
  map valeur_fonciere (lignes df)
  = map (fun p => fst p * snd p)
        (combine prix_tires (map surface_reelle_bati (lignes df))).
Proof.
  intros Hu df.
  destruct (table_generee_colonnes code g)
    as (jours & bruit & surfaces & Et & _ & _ & L3 & _ & Es & Ev).
  fold df in Es, Ev.
  assert (Hs : Forall (fun s => 30 <= s <= 150) surfaces).
  { unfold tirages_demo in Et.
    destruct (tirages 150 (randint 0 1825) (seed 42)) as [j g1].
    destruct (tirages 150 (normal 0 200) g1) as [b g2].
    pose proof (tirages_tous _ _ (fun s => 30 <= s <= 150) 150
                  (uniform 30 150) g2 Hu) as H.
    destruct (tirages 150 (uniform 30 150) g2) as [s g3].
    injection Et as _ _ <-. exact H. }
  assert (Hin : forall t, In t (lignes df) ->
                          30 <= surface_reelle_bati t <= 150).
  { intros t Ht. apply (in_map surface_reelle_bati) in Ht.
    rewrite Es in Ht. rewrite Forall_forall in Hs. now apply Hs. }
  split; [|split; [exact Hin|]].
  - apply Forall_forall. intros t Ht. destruct (Hin t Ht) as [H _].
    apply Qlt_le_trans with 30; [reflexivity | exact H].
  - rewrite Es. exact Ev.
Qed.

End AiresGenerees.

Lemma table_generee_aires_temoin :
  uniform_borne (np := numpy_exemple) /\
  aires_positives (fst (DemoStreamlit.generer_donnees_demo
                          (np := numpy_exemple) "33114" 0%Z)).
Proof.
  assert (H : uniform_borne (np := numpy_exemple)).
  { intros g. cbn [uniform numpy_exemple fst]. rewrite Qred_correct.
    pose proof (Z.mod_pos_bound (suivant g) 1000 eq_refl) as Hm.
    assert (H0 : 0 <= inject_Z (suivant g mod 1000) / 1000).
    { apply Qle_shift_div_l; [reflexivity|].
      change (0 * 1000) with (inject_Z 0). rewrite <- Zle_Qle. lia. }
    assert (H1 : inject_Z (suivant g mod 1000) / 1000 <= 1).
    { apply Qle_shift_div_r; [reflexivity|].
      change (1 * 1000) with (inject_Z 1000). rewrite <- Zle_Qle. lia. }
    split; lra. }
  split; [exact H|].
  exact (proj1 (table_generee_aires (np := numpy_exemple) "33114" 0%Z H)).
Defined.

(* ================================================================== *)
(** * Order of the valuation *)

(** For a mean price and an area that are not negative, the value lies
    within its band, the three integers displayed are in the same order,
    and the value grows with the category: to renovate, standard, high
    end, the standard one being the mean price times the area. *)
Theorem estimation_ordonnee (p a : Q) (insee nom : string) (pieces : Z) :
  0 <= p -> 0 <= a ->
  (forall c : Standing,
      exists v bas haut,
        Demo.estimation_finale
          (Demo.estimer (Some p) (mk_bien insee nom a pieces c)) = Some v /\
        Demo.fourchette_basse
          (Demo.estimer (Some p) (mk_bien insee nom a pieces c)) = Some bas /\
        Demo.fourchette_haute
          (Demo.estimer (Some p) (mk_bien insee nom a pieces c)) = Some haut /\
        0 <= bas /\ bas <= v /\ v <= haut /\
        (tronque bas <= tronque v <= tronque haut)%Z) /\
  exists v1 v2 v3,
    Demo.estimation_finale
      (Demo.estimer (Some p) (mk_bien insee nom a pieces A_RENOVER))
    = Some v1 /\
    Demo.estimation_finale
      (Demo.estimer (Some p) (mk_bien insee nom a pieces STANDARD))
    = Some v2 /\
    Demo.estimation_finale
      (Demo.estimer (Some p) (mk_bien insee nom a pieces HAUT_DE_GAMME))
    = Some v3 /\
    v1 <= v2 /\ v2 <= v3 /\ v2 == p * a.
Proof.
  intros Hp Ha.
  assert (Hpa : 0 <= p * a) by (now apply Qmult_le_0_compat).
  split.
  - intros c.
    exists (p * ajustements c * a), (p * ajustements c * a * 0.95),
           (p * ajustements c * a * 1.05).
    repeat (split; [reflexivity|]).
    assert (Hc : 0 <= ajustements c) by (destruct c; discriminate).
    assert (Hv : 0 <= p * ajustements c * a).
    { apply Qmult_le_0_compat; [|exact Ha].
      now apply Qmult_le_0_compat. }
    assert (H1 : 0 <= p * ajustements c * a * 0.95) by lra.
    assert (H2 : p * ajustements c * a * 0.95 <= p * ajustements c * a)
      by lra.
    assert (H3 : p * ajustements c * a <= p * ajustements c * a * 1.05)
      by lra.
    repeat split; try assumption; now apply tronque_croissante.
  - exists (p * 0.85 * a), (p * 1.0 * a), (p * 1.20 * a).
    repeat (split; [reflexivity|]).
    assert (E1 : p * 0.85 * a == 0.85 * (p * a)) by ring.
    assert (E2 : p * 1.0 * a == p * a) by ring.
    assert (E3 : p * 1.20 * a == 1.20 * (p * a)) by ring.
    rewrite E1, E2, E3. repeat split; lra.
Qed.

Lemma estimation_ordonnee_temoin :
  0 <= 2000 /\ 0 <= 75.0 /\
  exists v bas haut,
    Demo.estimation_finale
      (Demo.estimer (Some 2000)
                    (mk_bien "33114" "Cavignac" 75.0 3 HAUT_DE_GAMME))
    = Some v /\
    Demo.fourchette_basse
      (Demo.estimer (Some 2000)
                    (mk_bien "33114" "Cavignac" 75.0 3 HAUT_DE_GAMME))
    = Some bas /\
    Demo.fourchette_haute
      (Demo.estimer (Some 2000)
                    (mk_bien "33114" "Cavignac" 75.0 3 HAUT_DE_GAMME))
    = Some haut /\
    bas <= v /\ v <= haut.
Proof.
  assert (H1 : 0 <= 2000) by discriminate.
  assert (H2 : 0 <= 75.0) by discriminate.
  split; [exact H1 | split; [exact H2|]].
  destruct (proj1 (estimation_ordonnee 2000 75.0 "33114" "Cavignac" 3 H1 H2)
                  HAUT_DE_GAMME)
    as (v & bas & haut & E1 & E2 & E3 & _ & Hb & Hh & _).
  exists v, bas, haut. repeat split; assumption.
Defined.

(* ================================================================== *)
(** * The DVF dashboard as a whole *)

Section PageDvf.
Context {np : Numpy} {net : Reseau}.

(** The page once the fetch has given a table whose trimmed prices have
    statistics. *)
Lemma dvf_main_forme (ui : saisie) (df : DataFrame) (erreur : option string)
  (st : stats) (m : Q) :
  estimer_button ui = true ->
  Dvf.recuperer_transactions_dvf (input_insee ui) = (df, erreur) ->
  lignes df <> [] ->
  stats_de (serie_elaguee (valeur_sur_surface df)) = Retour st ->
  mean (serie_elaguee (valeur_sur_surface df)) = Some m ->
  Dvf.main ui =
    if Qeq_bool m 0 then
      (Retour tt,
       [StError "❌ Impossible d'analyser les données de cette commune"])
    else
      (Retour tt,
       [StSuccess ("✅ " ++ str_int (Z.of_nat (nb_transactions st))
                   ++ " transactions DVF analysées pour " ++ input_ville ui)]
       ++ statistiques_affichees (stat_min st) (stat_moyen st)
                                 (stat_max st) (stat_mediane st)
       ++ [StInfo ("📈 **" ++ str_int (Z.of_nat (nb_transactions st))
                   ++ "** transactions immobilières analysées");
           StPyplot (figure_dvf
                       (moyenne_par_annee
                          (annees_elaguees df)
                          (serie_elaguee (valeur_sur_surface df))))]
       ++ resultats_affiches
            (tronque (m * ajustements (input_standing ui)
                      * input_surface ui * 0.95))
            (tronque (m * ajustements (input_standing ui)
                      * input_surface ui))
            (tronque (m * ajustements (input_standing ui)
                      * input_surface ui * 1.05))
       ++ [StSuccess Dvf.note_finale]).
Proof.
  intros Hb Hf Hne Hst Hm. unfold Dvf.main. rewrite Hb.
  cbv zeta. cbn [code_insee]. rewrite Hf. rewrite (empty_faux df Hne).
  rewrite (dvf_analyser_forme df Hne). cbv zeta. rewrite Hst, Hm.
  cbn [lie est_zero]. destruct (Qeq_bool m 0); reflexivity.
Qed.


End PageDvf.


Section DeuxPrix.
Context {np : Numpy} {net : Reseau}.

(** When the fetch gives exactly two records whose prices per square metre
    differ, the band of the two quantiles lies strictly between them, the
    trimmed frame is empty, and the page stops on the ValueError of
    [int(NaN)] without having shown anything. *)
Theorem dvf_main_deux_prix (ui : saisie) (df : DataFrame)
  (erreur : option string) (t1 t2 : transaction) :
  estimer_button ui = true ->
  Dvf.recuperer_transactions_dvf (input_insee ui) = (df, erreur) ->
  lignes df = [t1; t2] ->
  ~ ratio t1 == ratio t2 ->
  serie_elaguee (valeur_sur_surface df) = [] /\
  Dvf.analyser_marche df
  = (Leve (ValueError "cannot convert float NaN to integer"), []) /\
  Dvf.main ui
  = (Leve (ValueError "cannot convert float NaN to integer"), []).
Proof.
  intros Hb Hf Hl Hd.
  assert (Hne : lignes df <> []) by (rewrite Hl; discriminate).
  assert (E : serie_elaguee (valeur_sur_surface df) = []).
  { unfold valeur_sur_surface. rewrite Hl. cbn [map].
    destruct (Q_dec (ratio t1) (ratio t2)) as [[H | H] | H].
    - exact (proj1 (deux_prix_distincts _ _ H)).
    - exact (proj2 (deux_prix_distincts _ _ H)).
    - contradiction. }
  assert (Ea : Dvf.analyser_marche df
               = (Leve (ValueError "cannot convert float NaN to integer"), [])).
  { rewrite (dvf_analyser_forme df Hne). cbv zeta. rewrite E. reflexivity. }
  split; [exact E | split; [exact Ea|]].
  unfold Dvf.main. rewrite Hb. cbv zeta. cbn [code_insee]. rewrite Hf.
  rewrite (empty_faux df Hne), Ea. reflexivity.
Qed.

End DeuxPrix.

Lemma dvf_main_deux_prix_temoin :
  Dvf.recuperer_transactions_dvf
    (net := serveur 200 (Retour table_deux_ventes))
    (input_insee saisie_exemple)
  = (mk_df [mk_transaction (mk_datetime 2023 1 5) (inject_Z 100000)
                           (inject_Z 100);
            mk_transaction (mk_datetime 2023 2 5) (inject_Z 200000)
                           (inject_Z 100)] None None, None) /\
  Dvf.main (np := numpy_exemple)
           (net := serveur 200 (Retour table_deux_ventes)) saisie_exemple
  = (Leve (ValueError "cannot convert float NaN to integer"), []).
Proof.
  assert (H : Dvf.recuperer_transactions_dvf
                (net := serveur 200 (Retour table_deux_ventes))
                (input_insee saisie_exemple)
              = (mk_df [mk_transaction (mk_datetime 2023 1 5)
                                       (inject_Z 100000) (inject_Z 100);
                        mk_transaction (mk_datetime 2023 2 5)
                                       (inject_Z 200000) (inject_Z 100)]
                       None None, None))
    by (vm_compute; reflexivity).
  split; [exact H|].
  refine (proj2 (proj2 (dvf_main_deux_prix (np := numpy_exemple)
                          (net := serveur 200 (Retour table_deux_ventes))
                          saisie_exemple _ None _ _ eq_refl H eq_refl _))).
  vm_compute. discriminate.
Defined.

(* ================================================================== *)
(** * A table at one price *)

Lemma filter_tout (A : Type) (f : A -> bool) (l : list A) :
  (forall x, In x l -> f x = true) -> filter f l = l.
Proof.
  induction l as [|x l IH]; intros H; simpl; [reflexivity|].
  rewrite (H x) by now left.
  rewrite IH; [reflexivity|]. intros y Hy. apply H. now right.
Qed.

Lemma quantile_constante (s : Series) (c q : Q) :
  s <> [] -> (forall y, In y s -> y == c) -> 0 <= q <= 1 ->
  exists v, quantile s q = Some v /\ v == c.
Proof.
  intros Hne Hc Hq.
  destruct (quantile s q) as [v|] eqn:E;
    [|destruct s; [congruence | discriminate]].
  exists v. split; [reflexivity|].
  assert (Hn : (1 <= List.length s)%nat)
    by (destruct s; [congruence | simpl; lia]).
  destruct (rang_bas_borne q _ Hq Hn) as (Hb & _ & _).
  pose proof (quantile_encadre s q v Hq E) as [H1 H2]. cbv zeta in H1, H2.
  assert (Hnth : forall i, (i < List.length s)%nat -> nth i (trie s) 0 == c).
  { intros i Hi. apply Hc. apply (proj1 (trie_In s _)).
    apply nth_In. now rewrite trie_longueur. }
  rewrite Hnth in H1 by lia. rewrite Hnth in H2 by lia.
  now apply Qle_antisym.
Qed.

Lemma serie_elaguee_constante (s : Series) (c : Q) :
  s <> [] -> (forall y, In y s -> y == c) -> serie_elaguee s = s.
Proof.
  intros Hne Hc.
  destruct (quantile_constante s c 0.05 Hne Hc) as (q1 & E1 & H1);
    [split; discriminate|].
  destruct (quantile_constante s c 0.95 Hne Hc) as (q99 & E2 & H2);
    [split; discriminate|].
  unfold serie_elaguee. rewrite E1, E2. apply filter_tout.
  intros y Hy. unfold Dvf.dans_bande, ge_float, le_float.
  apply andb_true_iff. split; apply Qle_bool_iff.
  - rewrite H1, (Hc y Hy). apply Qle_refl.
  - rewrite H2, (Hc y Hy). apply Qle_refl.
Qed.

Lemma statistiques_constantes (s : Series) (c : Q) :
  s <> [] -> (forall y, In y s -> y == c) ->
  exists m, mean s = Some m /\ m == c /\
    stats_de s = Retour (mk_stats (tronque c) (tronque c) (tronque c)
                                  (tronque c) (List.length s)).
Proof.
  intros Hne Hc.
  destruct (serie_min_defini s Hne) as [mn Hmn].
  destruct (serie_max_defini s Hne) as [mx Hmx].
  destruct (mean_defini s Hne) as [mo Hmo].
  destruct (median_defini s Hne) as [md Hmd].
  assert (Hlo : forall y, In y s -> c <= y)
    by (intros y Hy; rewrite (Hc y Hy); apply Qle_refl).
  assert (Hhi : forall y, In y s -> y <= c)
    by (intros y Hy; rewrite (Hc y Hy); apply Qle_refl).
  assert (Emo : mo == c).
  { destruct (mean_encadree s mo c c Hmo Hlo Hhi). now apply Qle_antisym. }
  assert (Emd : md == c).
  { destruct (median_encadree s md c c Hmd Hlo Hhi). now apply Qle_antisym. }
  assert (Emn : mn == c).
  { apply Qle_antisym.
    - destruct s as [|x t]; [congruence|].
      rewrite <- (Hc x (or_introl eq_refl)).
      apply (serie_min_minore _ _ _ Hmn). now left.
    - now apply (serie_min_glb s). }
  assert (Emx : mx == c).
  { apply Qle_antisym.
    - now apply (serie_max_lub s).
    - destruct s as [|x t]; [congruence|].
      rewrite <- (Hc x (or_introl eq_refl)).
      apply (serie_max_majore _ _ _ Hmx). now left. }
  exists mo. split; [exact Hmo | split; [exact Emo|]].
  unfold stats_de. rewrite Hmn, Hmx, Hmo, Hmd. cbn [py_int bind].
  now rewrite (tronque_comp _ _ Emn), (tronque_comp _ _ Emx),
    (tronque_comp _ _ Emo), (tronque_comp _ _ Emd).
Qed.

Section PrixUnique.
Context {np : Numpy}.

(** The analysis of a table at one price, in exact arithmetic. *)
Lemma dvf_analyser_prix_constant (df : DataFrame) (c : Q) :
  lignes df <> [] ->
  (forall t, In t (lignes df) -> ratio t == c) ->
  exists m fig,
    Dvf.analyser_marche df
    = (Retour (Some m, Some fig,
               Some (mk_stats (tronque c) (tronque c) (tronque c)
                              (tronque c) (len df)),
               mk_df (lignes df) (Some (valeur_sur_surface df)) (annee df)),
       []) /\
    m == c /\
    serie_elaguee (valeur_sur_surface df) = valeur_sur_surface df.
Proof.
  intros Hne Hc.
  pose proof (valeur_sur_surface_non_vide df Hne) as Hs.
  assert (Hc' : forall y, In y (valeur_sur_surface df) -> y == c).
  { unfold valeur_sur_surface. intros y Hy.
    apply in_map_iff in Hy as (t & <- & Ht). now apply Hc. }
  pose proof (serie_elaguee_constante _ c Hs Hc') as E.
  destruct (statistiques_constantes _ c Hs Hc') as (m & Hm & Em & Hst).
  exists m. eexists. rewrite (dvf_analyser_forme df Hne). cbv zeta.
  rewrite E, Hst, Hm.
  split; [|split; [exact Em | reflexivity]].
  unfold len, valeur_sur_surface. rewrite length_map. reflexivity.
Qed.

(** When every record of a non-empty table stands at the same price per
    square metre, the trimming of the DVF dashboard discards nothing: the
    analysis returns, counts all the records, and reports the integer part
    of that price as minimum, maximum and median. *)
Theorem dvf_prix_unique (df : DataFrame) (c : Q) :
  lignes df <> [] ->
  (forall t, In t (lignes df) -> ratio t == c) ->
  serie_elaguee (valeur_sur_surface df) = valeur_sur_surface df /\
  exists p fig i_moyen,
    Dvf.analyser_marche df
    = (Retour (p, Some fig,
               Some (mk_stats (tronque c) (tronque c) i_moyen
                              (tronque c) (len df)),
               mk_df (lignes df) (Some (valeur_sur_surface df)) (annee df)),
       []).
Proof.
  intros Hne Hc.
  destruct (dvf_analyser_prix_constant df c Hne Hc) as (m & fig & E & _ & Es).
  split; [exact Es|].
  exists (Some m), fig, (tronque c). exact E.
Qed.

End PrixUnique.

Lemma dvf_prix_unique_temoin :
  lignes df_a_2000 <> [] /\
  (forall t, In t (lignes df_a_2000) -> ratio t == 2000) /\
  exists p fig i_moyen df',
    Dvf.analyser_marche (np := numpy_exemple) df_a_2000
    = (Retour (p, Some fig, Some (mk_stats 2000 2000 i_moyen 2000 4), df'),
       []).
Proof.
  assert (H1 : lignes df_a_2000 <> []) by discriminate.
  assert (H2 : forall t, In t (lignes df_a_2000) -> ratio t == 2000).
  { intros t Ht. cbn [df_a_2000 lignes In] in Ht.
    destruct Ht as [<- | [<- | [<- | [<- | []]]]]; reflexivity. }
  split; [exact H1 | split; [exact H2|]].
  destruct (dvf_prix_unique (np := numpy_exemple) df_a_2000 2000 H1 H2)
    as (_ & p & fig & i & E).
  exists p, fig, i. eexists. exact E.
Defined.

Section ValeurNulle.
Context {np : Numpy} {net : Reseau}.

(** When every record the fetch gives has a value of zero, the records
    are analysed, their mean price is zero, and the page reports
    "Impossible d'analyser les données" as it would for no data: no
    statistic and no value is shown. *)
Theorem dvf_main_valeur_nulle (ui : saisie) (df : DataFrame)
  (erreur : option string) :
  estimer_button ui = true ->
  Dvf.recuperer_transactions_dvf (input_insee ui) = (df, erreur) ->
  lignes df <> [] ->
  (forall t, In t (lignes df) -> valeur_fonciere t == 0) ->
  (exists m fig st df',
      Dvf.analyser_marche df = (Retour (Some m, Some fig, Some st, df'), [])
      /\ m == 0 /\ nb_transactions st = len df) /\
  Dvf.main ui
  = (Retour tt,
     [StError "❌ Impossible d'analyser les données de cette commune"]).
Proof.
  intros Hb Hf Hne Hv.
  assert (Hc : forall t, In t (lignes df) -> ratio t == 0).
  { intros t Ht. unfold ratio. rewrite (Hv t Ht). unfold Qdiv. ring. }
  destruct (dvf_analyser_prix_constant df 0 Hne Hc)
    as (m & fig & E & Em & Es).
  split.
  - exists m, fig. eexists _, _. split; [exact E|]. split; [exact Em|].
    reflexivity.
  - pose proof (valeur_sur_surface_non_vide df Hne) as Hs.
    assert (Hc' : forall y, In y (valeur_sur_surface df) -> y == 0).
    { unfold valeur_sur_surface. intros y Hy.
      apply in_map_iff in Hy as (t & <- & Ht). now apply Hc. }
    destruct (statistiques_constantes _ 0 Hs Hc') as (m' & Hm' & Em' & Hst).
    rewrite <- Es in Hm', Hst.
    rewrite (dvf_main_forme ui df erreur _ m' Hb Hf Hne Hst Hm').
    apply Qeq_bool_iff in Em'. rewrite Em'. reflexivity.
Qed.

End ValeurNulle.

Lemma dvf_main_valeur_nulle_temoin :
  Dvf.main (np := numpy_exemple)
           (net := serveur 200 (Retour table_valeur_nulle)) saisie_exemple
  = (Retour tt,
     [StError "❌ Impossible d'analyser les données de cette commune"]).
Proof.
  refine (proj2 (dvf_main_valeur_nulle (np := numpy_exemple)
                   (net := serveur 200 (Retour table_valeur_nulle))
                   saisie_exemple
                   (mk_df [mk_transaction (mk_datetime 2023 1 5) (inject_Z 0)
                                          (inject_Z 100);
                           mk_transaction (mk_datetime 2023 2 5) (inject_Z 0)
                                          (inject_Z 80)] None None)
                   None eq_refl _ _ _)).
  - vm_compute. reflexivity.
  - discriminate.
  - intros t Ht. cbn [lignes In] in Ht.
    destruct Ht as [<- | [<- | []]]; reflexivity.
Defined.

(* ================================================================== *)
(** * What the fetch keeps *)

Lemma pour_chaque_aligne (A B : Type) (f : A -> resultat B)
  (l : list A) (ys : list B) :
  pour_chaque f l = Retour ys -> Forall2 (fun x y => f x = Retour y) l ys.
Proof.
  revert ys. induction l as [|x l IH]; intros ys H.
  - injection H as <-. constructor.
  - cbn [pour_chaque] in H.
    apply bind_retour in H as (y & Hy & H).
    apply bind_retour in H as (ys' & Hys & H).
    injection H as <-. constructor; [exact Hy | now apply IH].
Qed.

Section LignesRetenues.
Context {np : Numpy} {net : Reseau}.

(** A fetch that succeeds has read a file under status 200, and its frame
    is made of the usable cells of the sales of dwellings of that file. *)
Lemma recuperer_corps_succes (url : string) (df : DataFrame) :
  Dvf.recuperer_corps url = Retour (df, None) ->
  exists r table dates,
    requests_get url = Retour r /\ status_code r = 200%Z /\
    read_csv (text r) = Retour table /\
    let logements :=
      filter (fun l => String.eqb (type_local l) "Maison"
                       || String.eqb (type_local l) "Appartement")
             (filter (fun l => String.eqb (nature_mutation l) "Vente")
                     (lignes_brutes table)) in
    pour_chaque (fun l => to_datetime (date_brute l)) logements
    = Retour dates /\
    df = mk_df (flat_map Dvf.ligne_complete
                  (combine (combine dates
                              (map (fun l => to_numeric (valeur_brute l))
                                   logements))
                           (map (fun l => to_numeric (surface_brute l))
                                logements)))
               None None.
Proof.
  unfold Dvf.recuperer_corps. intros H.
  apply bind_retour in H as (r & Hr & H).
  destruct (Z.eqb_spec (status_code r) 200) as [Hs|Hs];
    [|discriminate H].
  apply bind_retour in H as (table & Ht & H).
  apply bind_retour in H as (_ & _ & H).
  apply bind_retour in H as (_ & _ & H).
  exists r, table.
  destruct (filter _ (filter _ (lignes_brutes table))) as [|l0 ls] eqn:El;
    [discriminate H|].
  apply bind_retour in H as (_ & _ & H).
  apply bind_retour in H as (_ & _ & H).
  apply bind_retour in H as (_ & _ & H).
  apply bind_retour in H as (dates & Hd & H).
  exists dates. repeat (split; [assumption|]). cbv zeta.
  destruct (flat_map Dvf.ligne_complete _) as [|x rest] eqn:E;
    [discriminate H|].
  injection H as <-. try (split; [exact Hd|]). reflexivity.
Qed.

(** The test of the fetch decides whether a raw row has a record. *)
Lemma est_retenue_correct (l : ligne_brute) :
  est_retenue l = true <-> exists t, ligne_retenue l t.
Proof.
  unfold est_retenue, ligne_retenue. split.
  - intros H. apply andb_true_iff in H as [H H3].
    apply andb_true_iff in H as [H1 H2].
    apply String.eqb_eq in H1. apply orb_true_iff in H2.
    destruct (to_datetime (date_brute l)) as [[d|]|e]; try discriminate H3.
    destruct (to_numeric (valeur_brute l)) as [v|]; try discriminate H3.
    destruct (to_numeric (surface_brute l)) as [a|]; try discriminate H3.
    destruct (Qlt_le_dec 0 a) as [Ha|Ha]; [|discriminate H3].
    exists (mk_transaction d v a).
    cbn [date_mutation valeur_fonciere surface_reelle_bati].
    split; [exact H1|]. split.
    + destruct H2 as [H2 | H2]; apply String.eqb_eq in H2; tauto.
    + repeat split. exact Ha.
  - intros (t & H1 & H2 & Hd & Hv & Hs & Ha). rewrite Hd, Hv, Hs.
    apply andb_true_iff. split; [apply andb_true_iff; split|].
    + now apply String.eqb_eq.
    + apply orb_true_iff.
      destruct H2 as [H2 | H2]; [left | right]; now apply String.eqb_eq.
    + destruct (Qlt_le_dec 0 (surface_reelle_bati t)) as [_|Hn];
        [reflexivity|].
      exfalso. now apply (Qlt_not_le _ _ Ha).
Qed.

Lemma filter_implique (A : Type) (f g : A -> bool) (l : list A) :
  (forall x, f x = true -> g x = true) -> filter f (filter g l) = filter f l.
Proof.
  intros H. induction l as [|x l IH]; [reflexivity|]. cbn [filter].
  destruct (g x) eqn:Hg; cbn [filter].
  - now rewrite IH.
  - destruct (f x) eqn:Hf; [|exact IH].
    apply H in Hf. congruence.
Qed.

(** Row by row and in the order of the file: the rows of the frame are
    the records of the sales of dwellings that pass the test. *)
Lemma lignes_en_ordre (l : list ligne_brute) (ds : list (option datetime)) :
  Forall2 (fun x d => to_datetime (date_brute x) = Retour d) l ds ->
  Forall (fun x => String.eqb (nature_mutation x) "Vente"
                   && (String.eqb (type_local x) "Maison"
                       || String.eqb (type_local x) "Appartement") = true) l ->
  Forall2 ligne_retenue
          (filter est_retenue l)
          (flat_map Dvf.ligne_complete
             (combine (combine ds
                         (map (fun x => to_numeric (valeur_brute x)) l))
                      (map (fun x => to_numeric (surface_brute x)) l))).
Proof.
  induction 1 as [|x d l ds Hxd Hl IH]; intros Hlab; [constructor|].
  apply Forall_cons_iff in Hlab as [Hx0 Hlab].
  cbn [map combine flat_map filter].
  destruct (est_retenue x) eqn:Hx.
  - pose proof Hx as Hx'. apply est_retenue_correct in Hx' as (t & Ht).
    pose proof Ht as (_ & _ & Hd & Hv & Hs & Ha).
    rewrite Hxd in Hd. injection Hd as ->. rewrite Hv, Hs.
    cbn [Dvf.ligne_complete].
    destruct (Qlt_le_dec 0 (surface_reelle_bati t)) as [_|Hn];
      [|exfalso; now apply (Qlt_not_le _ _ Ha)].
    cbn [app]. constructor; [|now apply IH].
    now destruct t.
  - replace (Dvf.ligne_complete
               (d, to_numeric (valeur_brute x), to_numeric (surface_brute x)))
      with (@nil transaction); [now apply IH|].
    unfold est_retenue in Hx. rewrite Hx0, Hxd in Hx. cbn [andb] in Hx.
    unfold Dvf.ligne_complete.
    destruct d as [d|]; [|reflexivity].
    destruct (to_numeric (valeur_brute x)) as [v|]; [|reflexivity].
    destruct (to_numeric (surface_brute x)) as [a|]; [|reflexivity].
    destruct (Qlt_le_dec 0 a); [discriminate Hx | reflexivity].
Qed.

(** The frame of a successful fetch holds, in the order of the file and
    one for one, the records of the raw rows that pass the test of the
    fetch: a sale ('Vente') of a house or a flat whose date and two numbers
    can be read and whose area is positive.  No other row gets in, no
    such row is lost or repeated, and the frame has no derived column
    yet. *)
Theorem recuperer_lignes_retenues (code : string) (df : DataFrame) :
  Dvf.recuperer_transactions_dvf code = (df, None) ->
  exists r table,
    requests_get (Dvf.url_dvf code) = Retour r /\
    status_code r = 200%Z /\
    read_csv (text r) = Retour table /\
    Forall2 ligne_retenue
            (filter est_retenue (lignes_brutes table)) (lignes df) /\
    len df = List.length (filter est_retenue (lignes_brutes table)) /\
    (forall l, est_retenue l = true <-> exists t, ligne_retenue l t) /\
    prix_m2 df = None /\ annee df = None.
Proof.
  unfold Dvf.recuperer_transactions_dvf. cbv zeta. intros H.
  destruct (Dvf.recuperer_corps (Dvf.url_dvf code)) as [[df0 e0]|e] eqn:E;
    [|discriminate H].
  injection H as -> ->.
  destruct (recuperer_corps_succes _ _ E)
    as (r & table & dates & Hr & Hs & Ht & Hd & ->).
  exists r, table. repeat (split; [assumption|]).
  assert (HF : Forall2 ligne_retenue
                 (filter est_retenue (lignes_brutes table))
                 (lignes
                    (mk_df
                       (flat_map Dvf.ligne_complete
                          (combine
                             (combine dates
                                (map (fun l => to_numeric (valeur_brute l))
                                   (filter
                                      (fun l =>
                                         String.eqb (type_local l) "Maison"
                                         || String.eqb (type_local l)
                                                       "Appartement")
                                      (filter
                                         (fun l =>
                                            String.eqb (nature_mutation l)
                                                       "Vente")
                                         (lignes_brutes table)))))
                             (map (fun l => to_numeric (surface_brute l))
                                (filter
                                   (fun l =>
                                      String.eqb (type_local l) "Maison"
                                      || String.eqb (type_local l)
                                                    "Appartement")
                                   (filter
                                      (fun l =>
                                         String.eqb (nature_mutation l)
                                                    "Vente")
                                      (lignes_brutes table))))))
                       None None))).
  { cbn [lignes].
    rewrite <- (filter_implique _ est_retenue
                  (fun l => String.eqb (nature_mutation l) "Vente")
                  (lignes_brutes table)).
    2:{ intros x Hx. unfold est_retenue in Hx.
        apply andb_true_iff in Hx as [Hx _].
        now apply andb_true_iff in Hx as [Hx _]. }
    rewrite <- (filter_implique _ est_retenue
                  (fun l => String.eqb (type_local l) "Maison"
                            || String.eqb (type_local l) "Appartement")).
    2:{ intros x Hx. unfold est_retenue in Hx.
        apply andb_true_iff in Hx as [Hx _].
        now apply andb_true_iff in Hx as [_ Hx]. }
    apply lignes_en_ordre.
    - exact (pour_chaque_aligne _ _ _ _ _ Hd).
    - apply Forall_forall. intros x Hx.
      apply filter_In in Hx as [Hx H2].
      apply filter_In in Hx as [_ H1].
      now rewrite H1, H2. }
  split; [exact HF|].
  split; [unfold len; symmetry; exact (Forall2_length HF)|].
  split; [exact est_retenue_correct|].
  split; reflexivity.
Qed.

End LignesRetenues.

Lemma recuperer_lignes_retenues_temoin :
  Dvf.recuperer_transactions_dvf
    (net := serveur 200 (Retour table_exemple)) "33063"
  = (df_exemple, None) /\
  List.length (filter (est_retenue (net := serveur 200 (Retour table_exemple)))
                      (lignes_brutes table_exemple)) = 3%nat /\
  len df_exemple = 3%nat.
Proof.
  assert (H : Dvf.recuperer_transactions_dvf
                (net := serveur 200 (Retour table_exemple)) "33063"
              = (df_exemple, None)) by (vm_compute; reflexivity).
  split; [exact H|].
  destruct (recuperer_lignes_retenues
              (net := serveur 200 (Retour table_exemple)) "33063"
              df_exemple H) as (r & table & _ & _ & Ht & _ & Hl & _).
  injection Ht as <-. rewrite <- Hl. split; reflexivity.
Defined.

(* ================================================================== *)
(** * Trimming a small sample *)

Lemma quantile_forme (s : Series) (q : Q) :
  s <> [] ->
  quantile s q
  = Some (nth (rang_bas q (List.length s)) (trie s) 0
          + (nth (Nat.min (S (rang_bas q (List.length s)))
                          (List.length s - 1)) (trie s) 0
             - nth (rang_bas q (List.length s)) (trie s) 0)
            * (q * inject_Z (Z.of_nat (List.length s - 1))
               - inject_Z (Z.of_nat (rang_bas q (List.length s))))).
Proof.
  destruct s as [|x t]; [congruence|]. intros _.
  unfold quantile. rewrite trie_longueur. reflexivity.
Qed.

(** In a sample of 2 to 20 values the lower quantile reads ranks 0 and 1
    and the upper one the last two ranks. *)
Lemma rangs_petit_echantillon (n : nat) :
  (2 <= n <= 20)%nat ->
  rang_bas 0.05 n = 0%nat /\ rang_bas 0.95 n = (n - 2)%nat /\
  0 < 0.05 * inject_Z (Z.of_nat (n - 1)) /\
  0.95 * inject_Z (Z.of_nat (n - 1)) - inject_Z (Z.of_nat (n - 2)) < 1.
Proof.
  intros Hn.
  assert (H05 : 0 <= 0.05 <= 1) by (split; discriminate).
  assert (H95 : 0 <= 0.95 <= 1) by (split; discriminate).
  assert (Hn1 : (1 <= n)%nat) by lia.
  destruct (rang_bas_borne 0.05 n H05 Hn1) as (_ & Hlo1 & _).
  destruct (rang_bas_borne 0.95 n H95 Hn1) as (_ & Hlo2 & Hhi2).
  cbv zeta in Hlo1, Hlo2, Hhi2.
  assert (HN1 : 1 <= inject_Z (Z.of_nat (n - 1))).
  { change 1 with (inject_Z 1). rewrite <- Zle_Qle. lia. }
  assert (HN2 : inject_Z (Z.of_nat (n - 1)) <= 19).
  { change 19 with (inject_Z 19). rewrite <- Zle_Qle. lia. }
  assert (E2 : inject_Z (Z.of_nat (n - 2))
               == inject_Z (Z.of_nat (n - 1)) - 1).
  { replace (Z.of_nat (n - 2)) with (Z.of_nat (n - 1) - 1)%Z by lia.
    unfold Z.sub. rewrite inject_Z_plus. reflexivity. }
  assert (B1 : rang_bas 0.05 n = 0%nat).
  { assert (H : inject_Z (Z.of_nat (rang_bas 0.05 n)) < inject_Z 1)
      by (change (inject_Z 1) with 1; lra).
    rewrite <- Zlt_Qlt in H. lia. }
  assert (B2 : rang_bas 0.95 n = (n - 2)%nat).
  { assert (Ha : inject_Z (Z.of_nat (rang_bas 0.95 n))
                 < inject_Z (Z.of_nat (n - 1))) by lra.
    assert (Hb : inject_Z (Z.of_nat (n - 2))
                 < inject_Z (Z.of_nat (rang_bas 0.95 n) + 1)).
    { rewrite inject_Z_plus. change (inject_Z 1) with 1. lra. }
    rewrite <- Zlt_Qlt in Ha, Hb. lia. }
  repeat split; try assumption; lra.
Qed.

Lemma filter_un_rejete (A : Type) (f : A -> bool) (l : list A) (a : A) :
  In a l -> f a = false ->
  (List.length (filter f l) + 1 <= List.length l)%nat.
Proof.
  induction l as [|x l IH]; intros Hin Hf; [destruct Hin|].
  cbn [filter]. destruct Hin as [-> | Hin].
  - rewrite Hf. pose proof (filter_length_le f l). simpl. lia.
  - specialize (IH Hin Hf). destruct (f x); simpl; lia.
Qed.

Lemma filter_deux_rejetes (A : Type) (f : A -> bool) (l : list A) (a b : A) :
  In a l -> In b l -> a <> b -> f a = false -> f b = false ->
  (List.length (filter f l) + 2 <= List.length l)%nat.
Proof.
  induction l as [|x l IH]; intros Ha Hb Hab Hfa Hfb; [destruct Ha|].
  cbn [filter]. destruct Ha as [-> | Ha], Hb as [-> | Hb].
  - congruence.
  - rewrite Hfa. pose proof (filter_un_rejete A f l b Hb Hfb). simpl. lia.
  - rewrite Hfb. pose proof (filter_un_rejete A f l a Ha Hfa). simpl. lia.
  - specialize (IH Ha Hb Hab Hfa Hfb). destruct (f x); simpl; lia.
Qed.

(** In a sample of 2 to 20 prices whose two lowest differ and whose two
    highest differ, the band of the quantiles lies strictly inside the
    range of the prices: every kept price is strictly between the lowest
    and the highest, and at least two records are discarded. *)
Lemma serie_elaguee_petit_echantillon (s : Series) :
  let n := List.length s in
  (2 <= n <= 20)%nat ->
  nth 0 (trie s) 0 < nth 1 (trie s) 0 ->
  nth (n - 2) (trie s) 0 < nth (n - 1) (trie s) 0 ->
  (forall x, In x (serie_elaguee s) ->
             nth 0 (trie s) 0 < x /\ x < nth (n - 1) (trie s) 0) /\
  (List.length (serie_elaguee s) + 2 <= n)%nat.
Proof.
  intros n Hn Hbas Hhaut.
  assert (Hne : s <> []) by (destruct s; [simpl in n; lia | discriminate]).
  destruct (rangs_petit_echantillon n Hn) as (B1 & B2 & G1 & G2).
  pose proof (quantile_forme s 0.05 Hne) as E1.
  pose proof (quantile_forme s 0.95 Hne) as E2.
  fold n in E1, E2. rewrite B1 in E1. rewrite B2 in E2.
  replace (Nat.min 1 (n - 1)) with 1%nat in E1 by lia.
  replace (Nat.min (S (n - 2)) (n - 1)) with (n - 1)%nat in E2 by lia.
  change (inject_Z (Z.of_nat 0)) with 0 in E1.
  set (t0 := nth 0 (trie s) 0) in *. set (t1 := nth 1 (trie s) 0) in *.
  set (u0 := nth (n - 2) (trie s) 0) in *.
  set (u1 := nth (n - 1) (trie s) 0) in *.
  set (g1 := 0.05 * inject_Z (Z.of_nat (n - 1))) in *.
  set (g2 := 0.95 * inject_Z (Z.of_nat (n - 1))
             - inject_Z (Z.of_nat (n - 2))) in *.
  assert (Q1 : t0 < t0 + (t1 - t0) * (g1 - 0)).
  { assert (0 < (t1 - t0) * g1) by (apply Qmult_lt_0_compat; lra).
    lra. }
  assert (Q2 : u0 + (u1 - u0) * g2 < u1).
  { assert (0 < (u1 - u0) * (1 - g2)) by (apply Qmult_lt_0_compat; lra).
    lra. }
  assert (Hin : forall x, In x (serie_elaguee s) -> t0 < x /\ x < u1).
  { intros x Hx.
    destruct (serie_elaguee_bande s x Hx) as (q1 & q99 & F1 & F2 & H1 & H2).
    rewrite E1 in F1. rewrite E2 in F2.
    injection F1 as <-. injection F2 as <-. split; lra. }
  split; [exact Hin|].
  assert (Hsorted : t0 <= u0).
  { apply triee_nth; [apply trie_triee | lia |]. rewrite trie_longueur.
    fold n. lia. }
  unfold serie_elaguee.
  apply (filter_deux_rejetes Q _ s t0 u1).
  - apply (proj1 (trie_In s _)). apply nth_In. rewrite trie_longueur.
    fold n. lia.
  - apply (proj1 (trie_In s _)). apply nth_In. rewrite trie_longueur.
    fold n. lia.
  - intros E. rewrite E in Hsorted. lra.
  - rewrite E1. unfold Dvf.dans_bande, ge_float.
    rewrite Qle_bool_faux by exact Q1. reflexivity.
  - rewrite E1, E2. unfold Dvf.dans_bande, ge_float, le_float.
    rewrite (Qle_bool_faux u1) by exact Q2. apply andb_false_r.
Qed.

Lemma serie_min_trie (s : Series) (mn : Q) :
  serie_min s = Some mn -> mn == nth 0 (trie s) 0.
Proof.
  intros Hmn.
  assert (Hne : s <> []) by (destruct s; [discriminate | discriminate]).
  assert (Hn : (0 < List.length (trie s))%nat).
  { rewrite trie_longueur. destruct s; [congruence | simpl; lia]. }
  apply Qle_antisym.
  - apply (serie_min_minore s mn _ Hmn). apply (proj1 (trie_In s _)).
    now apply nth_In.
  - apply (serie_min_glb s mn _ Hmn). intros y Hy.
    apply (proj2 (trie_In s _)) in Hy.
    destruct (In_nth _ _ 0 Hy) as (i & Hi & <-).
    apply triee_nth; [apply trie_triee | lia | exact Hi].
Qed.

Lemma serie_max_trie (s : Series) (mx : Q) :
  serie_max s = Some mx -> mx == nth (List.length s - 1) (trie s) 0.
Proof.
  intros Hmx.
  assert (Hne : s <> []) by (destruct s; [discriminate | discriminate]).
  assert (Hn : (0 < List.length s)%nat)
    by (destruct s; [congruence | simpl; lia]).
  assert (Hl : List.length (trie s) = List.length s) by apply trie_longueur.
  apply Qle_antisym.
  - apply (serie_max_lub s mx _ Hmx). intros y Hy.
    apply (proj2 (trie_In s _)) in Hy.
    destruct (In_nth _ _ 0 Hy) as (i & Hi & <-).
    apply triee_nth; [apply trie_triee | lia | lia].
  - apply (serie_max_majore s mx _ Hmx). apply (proj1 (trie_In s _)).
    apply nth_In. lia.
Qed.

Section PetitEchantillon.
Context {np : Numpy}.

(** On a table of 3 to 20 records whose two lowest prices differ and
    whose two highest prices differ, the DVF dashboard does not cut 5 % at
    each end: it returns statistics over at most all but two records, and
    every price it keeps is strictly above the minimum and strictly below
    the maximum of the table. *)
Theorem dvf_petit_echantillon (df : DataFrame) :
  let s := valeur_sur_surface df in
  (3 <= len df <= 20)%nat ->
  nth 0 (trie s) 0 < nth 1 (trie s) 0 ->
  nth (len df - 2) (trie s) 0 < nth (len df - 1) (trie s) 0 ->
  exists p fig st df' mn mx,
    Dvf.analyser_marche df = (Retour (p, Some fig, Some st, df'), []) /\
    (nb_transactions st + 2 <= len df)%nat /\
    serie_min s = Some mn /\ serie_max s = Some mx /\
    (forall x, In x (serie_elaguee s) -> mn < x /\ x < mx).
Proof.
  intros s Hn Hbas Hhaut.
  assert (Hl : List.length s = len df)
    by (unfold s, valeur_sur_surface, len; now rewrite length_map).
  assert (Hne : lignes df <> []) by (apply len_non_vide; lia).
  pose proof (valeur_sur_surface_non_vide df Hne) as Hs. fold s in Hs.
  rewrite <- Hl in Hn, Hhaut.
  destruct (serie_elaguee_petit_echantillon s) as [Hin Hlen];
    [lia | exact Hbas | exact Hhaut |].
  destruct (serie_min_defini s Hs) as [mn Hmn].
  destruct (serie_max_defini s Hs) as [mx Hmx].
  pose proof (serie_min_trie s mn Hmn) as Emn.
  pose proof (serie_max_trie s mx Hmx) as Emx.
  destruct (dvf_analyser_retourne df) as (p & fig & st & df' & E); [lia|].
  destruct (dvf_analyser_retour df _ _ _ _ _ Hne E)
    as (st0 & Hst & [= <-] & _).
  destruct (stats_de_inv _ _ Hst) as (? & ? & ? & ? & _ & _ & _ & _ & ->).
  exists p, fig. eexists. exists df', mn, mx. split; [exact E|].
  cbn [nb_transactions]. fold s. split; [lia|].
  split; [exact Hmn | split; [exact Hmx|]].
  intros y Hy. destruct (Hin y Hy) as [H1 H2]. rewrite Emn, Emx.
  split; assumption.
Qed.

End PetitEchantillon.

Lemma dvf_petit_echantillon_temoin :
  (3 <= len df_exemple <= 20)%nat /\
  exists p fig st df',
    Dvf.analyser_marche (np := numpy_exemple) df_exemple
    = (Retour (p, Some fig, Some st, df'), []) /\
    (nb_transactions st + 2 <= len df_exemple)%nat.
Proof.
  assert (H1 : (3 <= len df_exemple <= 20)%nat) by (vm_compute; lia).
  split; [exact H1|].
  destruct (dvf_petit_echantillon (np := numpy_exemple) df_exemple H1)
    as (p & fig & st & df' & mn & mx & E & Hn & _).
  - vm_compute. reflexivity.
  - vm_compute. reflexivity.
  - exists p, fig, st, df'. split; assumption.
Defined.

Lemma dvf_tendance_gardee_temoin :
  lignes df_a_2000 <> [] /\
  exists p f st df' t,
    Dvf.analyser_marche (np := numpy_exemple) df_a_2000
    = (Retour (p, Some f, st, df'), t) /\
    existsb est_tendance f = true.
Proof.
  assert (H1 : lignes df_a_2000 <> []) by discriminate.
  split; [exact H1|].
  destruct (dvf_analyser_retourne (np := numpy_exemple) df_a_2000)
    as (p & fig & st & df' & E); [right; vm_compute; lia|].
  destruct (dvf_tendance_gardee (np := numpy_exemple) df_a_2000 _ _ _ _ _ H1 E)
    as (f & [= <-] & Hf & _).
  exists p, fig, (Some st), df', []. split; [exact E|].
  rewrite Hf. vm_compute. reflexivity.
Defined.
